(** * Torneo API: a shallow embedding of [main.py]

    The program is a FastAPI application whose handlers each run one
    parameterised SQL statement against an SQLite file and translate the
    outcome into an HTTP response.  The development has three layers:

    - the storage layer: the seven tables of [initialize_database] with the
      constraints of their [CREATE TABLE] statements, and one function per
      SQL statement text that occurs in [main.py];
    - the connection layer: [get_db], the implicit transaction the [sqlite3]
      module opens before a data-modifying statement, [commit], and [close]
      dropping whatever was not committed;
    - the HTTP layer: the pydantic schemas, the handlers, and the mapping
      from an exception leaving a handler to the response the client sees.

    Conventions.  SQLite [INTEGER] values and Python [int]s are [Z] (request
    integers are taken inside SQLite's 64-bit range, which is where the
    binding layer accepts them).  [TEXT] values are [string]s compared byte
    for byte, as the default [BINARY] collation does; a text column gives
    back the string that was bound to it, and [String.length] counts its
    characters.  (The [DATETIME] columns have numeric affinity: a timestamp
    that SQLite would read as a number is outside this model.)  [CURRENT_TIMESTAMP] is an input
    of the request, the argument [now].  [EmailStr]'s syntax check is done
    by the framework before a payload exists; the [email] field of a payload
    is the address it accepted. *)

From Stdlib Require Import ZArith List String Bool Lia.
Import ListNotations.
Open Scope Z_scope.
Open Scope string_scope.

(** ** Storage layer *)

Module Schema.

(** One record per [CREATE TABLE]; a [NOT NULL] column has the plain type, a
    nullable one an [option]. *)

Record usuarios_row := mk_usuario {
  u_id : Z;
  u_nombre : string;
  u_nickname : string;
  u_email : string;
  u_pwd_hash : string;
  u_fecha_reg : string }.

Record equipos_row := mk_equipo {
  e_id : Z;
  e_nombre : string;
  e_id_capitan : Z }.

Record miembros_equipo_row := mk_miembro {
  m_id : Z;
  m_id_equipo : Z;
  m_id_usuario : Z;
  m_rol : string }.

Record torneos_row := mk_torneo {
  t_id : Z;
  t_nombre : string;
  t_descripcion : option string;
  t_fecha_inicio : string;
  t_fecha_fin : string;
  t_max_equipos : Z;
  t_estado : string }.

Record inscripciones_row := mk_inscripcion {
  i_id : Z;
  i_id_equipo : Z;
  i_id_torneo : Z;
  i_fecha_inscripcion : string }.

Record pagos_row := mk_pago {
  p_id : Z;
  p_id_equipo : Z;
  p_id_torneo : Z;
  p_monto_cent : Z;
  p_estado : string;
  p_fecha_pago : string }.

Record partidos_row := mk_partido {
  pa_id : Z;
  pa_id_torneo : Z;
  pa_equipo_local : Z;
  pa_equipo_visitante : Z;
  pa_fecha : string;
  pa_resultado_local : option Z;
  pa_resultado_visitante : option Z }.

(** A table: its rows in rowid order, and its entry in [sqlite_sequence]
    (every primary key is [INTEGER PRIMARY KEY AUTOINCREMENT]). *)
Record table (R : Type) := mk_table {
  rows : list R;
  seq : Z }.
Arguments mk_table {R} _ _.
Arguments rows {R} _.
Arguments seq {R} _.

Record DB := mk_DB {
  usuarios : table usuarios_row;
  equipos : table equipos_row;
  miembros_equipo : table miembros_equipo_row;
  torneos : table torneos_row;
  inscripciones : table inscripciones_row;
  pagos : table pagos_row;
  partidos : table partidos_row }.

(** The database right after [initialize_database]. *)
Definition empty_table {R} : table R := mk_table [] 0.
Definition initialize_database : DB :=
  mk_DB empty_table empty_table empty_table empty_table
        empty_table empty_table empty_table.

Definition set_usuarios (db : DB) (t : table usuarios_row) : DB :=
  mk_DB t (equipos db) (miembros_equipo db) (torneos db)
        (inscripciones db) (pagos db) (partidos db).
Definition set_equipos (db : DB) (t : table equipos_row) : DB :=
  mk_DB (usuarios db) t (miembros_equipo db) (torneos db)
        (inscripciones db) (pagos db) (partidos db).
Definition set_miembros_equipo (db : DB) (t : table miembros_equipo_row) : DB :=
  mk_DB (usuarios db) (equipos db) t (torneos db)
        (inscripciones db) (pagos db) (partidos db).
Definition set_torneos (db : DB) (t : table torneos_row) : DB :=
  mk_DB (usuarios db) (equipos db) (miembros_equipo db) t
        (inscripciones db) (pagos db) (partidos db).
Definition set_inscripciones (db : DB) (t : table inscripciones_row) : DB :=
  mk_DB (usuarios db) (equipos db) (miembros_equipo db) (torneos db)
        t (pagos db) (partidos db).
Definition set_pagos (db : DB) (t : table pagos_row) : DB :=
  mk_DB (usuarios db) (equipos db) (miembros_equipo db) (torneos db)
        (inscripciones db) t (partidos db).
Definition set_partidos (db : DB) (t : table partidos_row) : DB :=
  mk_DB (usuarios db) (equipos db) (miembros_equipo db) (torneos db)
        (inscripciones db) (pagos db) t.

(** [AUTOINCREMENT]: the new rowid is one more than the largest rowid the
    table has ever held. *)
Definition max_rowid (ids : list Z) : Z := fold_right Z.max 0 ids.
Definition next_rowid {R} (id_of : R -> Z) (t : table R) : Z :=
  Z.max (max_rowid (map id_of (rows t))) (seq t) + 1.

(** Appending a row under a fresh rowid; the row is built from the id. *)
Definition append_row {R} (id_of : R -> Z) (t : table R) (mk : Z -> R)
  : table R * Z :=
  let id := next_rowid id_of t in
  (mk_table (rows t ++ [mk id]) id, id).

(** [DELETE ... WHERE NOT keep]: the rows that stay. *)
Definition retain {R} (keep : R -> bool) (t : table R) : table R :=
  mk_table (filter keep (rows t)) (seq t).

(** [UPDATE ... SET ... WHERE hit]. *)
Definition modify {R} (hit : R -> bool) (f : R -> R) (t : table R) : table R :=
  mk_table (map (fun r => if hit r then f r else r) (rows t)) (seq t).

Definition count_rows {R} (hit : R -> bool) (t : table R) : Z :=
  Z.of_nat (List.length (filter hit (rows t))).

Definition has_row {R} (hit : R -> bool) (t : table R) : bool :=
  existsb hit (rows t).

(** [fetchone] of a [SELECT * ... WHERE]: the first matching row. *)
Definition fetchone {R} (hit : R -> bool) (t : table R) : option R :=
  find hit (rows t).

(** The value lists of the [CHECK(... IN (...))] constraints. *)
Definition rol_values : list string := ["jugador"; "capitan"; "suplente"].
Definition torneo_estado_values : list string :=
  ["programado"; "en_curso"; "finalizado"].
Definition pago_estado_values : list string := ["pendiente"; "confirmado"].

Definition text_in (s : string) (l : list string) : bool :=
  existsb (String.eqb s) l.

End Schema.
Export Schema.

(** ** The SQL statements of [main.py]

    One function per statement text.  A statement either runs, giving the
    new database and what the cursor reports ([lastrowid] for an [INSERT],
    [rowcount] for an [UPDATE] or [DELETE]), or violates a constraint of the
    schema; SQLite then undoes the statement and [sqlite3] raises
    [IntegrityError].  Foreign keys are enforced: [get_db] runs
    [PRAGMA foreign_keys = ON] on every connection. *)

Module Sql.

Inductive result (A : Type) :=
| Done (db : DB) (a : A)
| IntegrityError.
Arguments Done {A} _ _.
Arguments IntegrityError {A}.

Definition raises {A} (r : result A) : bool :=
  match r with Done _ _ => false | IntegrityError => true end.

(** [INSERT INTO usuarios (nombre, nickname, email, pwd_hash) VALUES (?, ?, ?, ?)]
    — [email] is [UNIQUE]; [fecha_reg] takes its default. *)
Definition INSERT_INTO_usuarios (now nombre nickname email pwd_hash : string)
    (db : DB) : result Z :=
  if has_row (fun r => String.eqb (u_email r) email) (usuarios db)
  then IntegrityError
  else
    let (t, id) := append_row u_id (usuarios db)
                     (fun id => mk_usuario id nombre nickname email pwd_hash now) in
    Done (set_usuarios db t) id.

(** [UPDATE usuarios SET nombre=?, nickname=?, email=? WHERE id=?] *)
Definition UPDATE_usuarios (nombre nickname email : string) (user_id : Z)
    (db : DB) : result Z :=
  let hit r := Z.eqb (u_id r) user_id in
  if negb (has_row hit (usuarios db)) then Done db 0
  else if has_row (fun r => negb (hit r) && String.eqb (u_email r) email)
                  (usuarios db)
  then IntegrityError
  else
    Done (set_usuarios db
            (modify hit
               (fun r => mk_usuario (u_id r) nombre nickname email
                                    (u_pwd_hash r) (u_fecha_reg r))
               (usuarios db)))
         (count_rows hit (usuarios db)).

(** [DELETE FROM usuarios WHERE id = ?] — [equipos.id_capitan] is
    [ON DELETE RESTRICT], [miembros_equipo.id_usuario] is [ON DELETE CASCADE]. *)
Definition DELETE_FROM_usuarios (user_id : Z) (db : DB) : result Z :=
  let hit r := Z.eqb (u_id r) user_id in
  if negb (has_row hit (usuarios db)) then Done db 0
  else if has_row (fun e => Z.eqb (e_id_capitan e) user_id) (equipos db)
  then IntegrityError
  else
    Done (set_miembros_equipo
            (set_usuarios db (retain (fun r => negb (hit r)) (usuarios db)))
            (retain (fun m => negb (Z.eqb (m_id_usuario m) user_id))
                    (miembros_equipo db)))
         (count_rows hit (usuarios db)).

(** [INSERT INTO equipos (nombre, id_capitan) VALUES (?, ?)] — [nombre] is
    [UNIQUE], [id_capitan] references [usuarios(id)]. *)
Definition INSERT_INTO_equipos (nombre : string) (id_capitan : Z) (db : DB)
    : result Z :=
  if has_row (fun e => String.eqb (e_nombre e) nombre) (equipos db)
     || negb (has_row (fun u => Z.eqb (u_id u) id_capitan) (usuarios db))
  then IntegrityError
  else
    let (t, id) := append_row e_id (equipos db)
                     (fun id => mk_equipo id nombre id_capitan) in
    Done (set_equipos db t) id.

(** [UPDATE equipos SET nombre=?, id_capitan=? WHERE id=?] *)
Definition UPDATE_equipos (nombre : string) (id_capitan team_id : Z) (db : DB)
    : result Z :=
  let hit e := Z.eqb (e_id e) team_id in
  if negb (has_row hit (equipos db)) then Done db 0
  else if has_row (fun e => negb (hit e) && String.eqb (e_nombre e) nombre)
                  (equipos db)
          || negb (has_row (fun u => Z.eqb (u_id u) id_capitan) (usuarios db))
  then IntegrityError
  else
    Done (set_equipos db
            (modify hit (fun e => mk_equipo (e_id e) nombre id_capitan)
                    (equipos db)))
         (count_rows hit (equipos db)).

(** [DELETE FROM equipos WHERE id = ?] — [partidos.equipo_local] and
    [partidos.equipo_visitante] are [ON DELETE RESTRICT]; the team columns
    of [miembros_equipo], [inscripciones] and [pagos] are [ON DELETE CASCADE]. *)
Definition DELETE_FROM_equipos (team_id : Z) (db : DB) : result Z :=
  let hit e := Z.eqb (e_id e) team_id in
  if negb (has_row hit (equipos db)) then Done db 0
  else if has_row (fun p => Z.eqb (pa_equipo_local p) team_id
                            || Z.eqb (pa_equipo_visitante p) team_id)
                  (partidos db)
  then IntegrityError
  else
    Done (set_pagos
            (set_inscripciones
               (set_miembros_equipo
                  (set_equipos db (retain (fun e => negb (hit e)) (equipos db)))
                  (retain (fun m => negb (Z.eqb (m_id_equipo m) team_id))
                          (miembros_equipo db)))
               (retain (fun i => negb (Z.eqb (i_id_equipo i) team_id))
                       (inscripciones db)))
            (retain (fun p => negb (Z.eqb (p_id_equipo p) team_id)) (pagos db)))
         (count_rows hit (equipos db)).

(** [INSERT INTO miembros_equipo (id_equipo, id_usuario, rol) VALUES (?, ?, ?)]
    — [CHECK(rol IN ...)], [UNIQUE(id_equipo, id_usuario)], the partial
    unique index [idx_unq_capitan_equipo] on [id_equipo WHERE rol = 'capitan'],
    and the two foreign keys. *)
Definition INSERT_INTO_miembros_equipo (id_equipo id_usuario : Z) (rol : string)
    (db : DB) : result Z :=
  if negb (text_in rol rol_values)
     || has_row (fun m => Z.eqb (m_id_equipo m) id_equipo
                          && Z.eqb (m_id_usuario m) id_usuario)
                (miembros_equipo db)
     || (String.eqb rol "capitan"
         && has_row (fun m => Z.eqb (m_id_equipo m) id_equipo
                              && String.eqb (m_rol m) "capitan")
                    (miembros_equipo db))
     || negb (has_row (fun e => Z.eqb (e_id e) id_equipo) (equipos db))
     || negb (has_row (fun u => Z.eqb (u_id u) id_usuario) (usuarios db))
  then IntegrityError
  else
    let (t, id) := append_row m_id (miembros_equipo db)
                     (fun id => mk_miembro id id_equipo id_usuario rol) in
    Done (set_miembros_equipo db t) id.

(** [DELETE FROM miembros_equipo WHERE id = ?] *)
Definition DELETE_FROM_miembros_equipo (member_id : Z) (db : DB) : result Z :=
  let hit m := Z.eqb (m_id m) member_id in
  Done (set_miembros_equipo db
          (retain (fun m => negb (hit m)) (miembros_equipo db)))
       (count_rows hit (miembros_equipo db)).

(** [INSERT INTO torneos (nombre, descripcion, fecha_inicio, fecha_fin,
    max_equipos, estado) VALUES (?, ?, ?, ?, ?, ?)] — [estado] is bound from
    an [Optional[str]]: [None] is SQL [NULL], which the [NOT NULL] column
    refuses (the column default is used only when the column is left out). *)
Definition INSERT_INTO_torneos (nombre : string) (descripcion : option string)
    (fecha_inicio fecha_fin : string) (max_equipos : Z) (estado : option string)
    (db : DB) : result Z :=
  match estado with
  | None => IntegrityError
  | Some est =>
      if negb (0 <? max_equipos)%Z || negb (text_in est torneo_estado_values)
      then IntegrityError
      else
        let (t, id) := append_row t_id (torneos db)
                         (fun id => mk_torneo id nombre descripcion fecha_inicio
                                              fecha_fin max_equipos est) in
        Done (set_torneos db t) id
  end.

(** [UPDATE torneos SET nombre=?, descripcion=?, fecha_inicio=?, fecha_fin=?,
    max_equipos=?, estado=? WHERE id=?] *)
Definition UPDATE_torneos (nombre : string) (descripcion : option string)
    (fecha_inicio fecha_fin : string) (max_equipos : Z) (estado : option string)
    (tournament_id : Z) (db : DB) : result Z :=
  let hit t := Z.eqb (t_id t) tournament_id in
  if negb (has_row hit (torneos db)) then Done db 0
  else
    match estado with
    | None => IntegrityError
    | Some est =>
        if negb (0 <? max_equipos)%Z || negb (text_in est torneo_estado_values)
        then IntegrityError
        else
          Done (set_torneos db
                  (modify hit
                     (fun t => mk_torneo (t_id t) nombre descripcion fecha_inicio
                                         fecha_fin max_equipos est)
                     (torneos db)))
               (count_rows hit (torneos db))
    end.

(** [DELETE FROM torneos WHERE id = ?] — the tournament columns of
    [inscripciones], [pagos] and [partidos] are [ON DELETE CASCADE]. *)
Definition DELETE_FROM_torneos (tournament_id : Z) (db : DB) : result Z :=
  let hit t := Z.eqb (t_id t) tournament_id in
  if negb (has_row hit (torneos db)) then Done db 0
  else
    Done (set_partidos
            (set_pagos
               (set_inscripciones
                  (set_torneos db (retain (fun t => negb (hit t)) (torneos db)))
                  (retain (fun i => negb (Z.eqb (i_id_torneo i) tournament_id))
                          (inscripciones db)))
               (retain (fun p => negb (Z.eqb (p_id_torneo p) tournament_id))
                       (pagos db)))
            (retain (fun p => negb (Z.eqb (pa_id_torneo p) tournament_id))
                    (partidos db)))
         (count_rows hit (torneos db)).

(** [INSERT INTO inscripciones (id_equipo, id_torneo) VALUES (?, ?)] —
    [UNIQUE(id_equipo, id_torneo)] and the two foreign keys. *)
Definition INSERT_INTO_inscripciones (now : string) (id_equipo id_torneo : Z)
    (db : DB) : result Z :=
  if has_row (fun i => Z.eqb (i_id_equipo i) id_equipo
                       && Z.eqb (i_id_torneo i) id_torneo)
             (inscripciones db)
     || negb (has_row (fun e => Z.eqb (e_id e) id_equipo) (equipos db))
     || negb (has_row (fun t => Z.eqb (t_id t) id_torneo) (torneos db))
  then IntegrityError
  else
    let (t, id) := append_row i_id (inscripciones db)
                     (fun id => mk_inscripcion id id_equipo id_torneo now) in
    Done (set_inscripciones db t) id.

(** [DELETE FROM inscripciones WHERE id = ?] *)
Definition DELETE_FROM_inscripciones (insc_id : Z) (db : DB) : result Z :=
  let hit i := Z.eqb (i_id i) insc_id in
  Done (set_inscripciones db
          (retain (fun i => negb (hit i)) (inscripciones db)))
       (count_rows hit (inscripciones db)).

(** [INSERT INTO pagos (id_equipo, id_torneo, monto_cent, estado)
    VALUES (?, ?, ?, ?)] — [CHECK(monto_cent >= 0)], [estado NOT NULL] with
    its [CHECK], and the two foreign keys. *)
Definition INSERT_INTO_pagos (now : string) (id_equipo id_torneo monto_cent : Z)
    (estado : option string) (db : DB) : result Z :=
  match estado with
  | None => IntegrityError
  | Some est =>
      if negb (0 <=? monto_cent)%Z
         || negb (text_in est pago_estado_values)
         || negb (has_row (fun e => Z.eqb (e_id e) id_equipo) (equipos db))
         || negb (has_row (fun t => Z.eqb (t_id t) id_torneo) (torneos db))
      then IntegrityError
      else
        let (t, id) := append_row p_id (pagos db)
                         (fun id => mk_pago id id_equipo id_torneo monto_cent
                                            est now) in
        Done (set_pagos db t) id
  end.

(** [DELETE FROM pagos WHERE id = ?] *)
Definition DELETE_FROM_pagos (payment_id : Z) (db : DB) : result Z :=
  let hit p := Z.eqb (p_id p) payment_id in
  Done (set_pagos db (retain (fun p => negb (hit p)) (pagos db)))
       (count_rows hit (pagos db)).

(** [INSERT INTO partidos (id_torneo, equipo_local, equipo_visitante, fecha,
    resultado_local, resultado_visitante) VALUES (?, ?, ?, ?, ?, ?)] —
    [CHECK(equipo_local <> equipo_visitante)] and the three foreign keys. *)
Definition INSERT_INTO_partidos (id_torneo equipo_local equipo_visitante : Z)
    (fecha : string) (resultado_local resultado_visitante : option Z)
    (db : DB) : result Z :=
  if Z.eqb equipo_local equipo_visitante
     || negb (has_row (fun t => Z.eqb (t_id t) id_torneo) (torneos db))
     || negb (has_row (fun e => Z.eqb (e_id e) equipo_local) (equipos db))
     || negb (has_row (fun e => Z.eqb (e_id e) equipo_visitante) (equipos db))
  then IntegrityError
  else
    let (t, id) := append_row pa_id (partidos db)
                     (fun id => mk_partido id id_torneo equipo_local
                                           equipo_visitante fecha
                                           resultado_local resultado_visitante) in
    Done (set_partidos db t) id.

(** [DELETE FROM partidos WHERE id = ?] *)
Definition DELETE_FROM_partidos (match_id : Z) (db : DB) : result Z :=
  let hit p := Z.eqb (pa_id p) match_id in
  Done (set_partidos db (retain (fun p => negb (hit p)) (partidos db)))
       (count_rows hit (partidos db)).

(** [SELECT * FROM <table> WHERE id = ?] followed by [fetchone()]. *)
Definition SELECT_usuarios_WHERE_id (id : Z) (db : DB) : option usuarios_row :=
  fetchone (fun r => Z.eqb (u_id r) id) (usuarios db).
Definition SELECT_equipos_WHERE_id (id : Z) (db : DB) : option equipos_row :=
  fetchone (fun r => Z.eqb (e_id r) id) (equipos db).
Definition SELECT_miembros_equipo_WHERE_id (id : Z) (db : DB)
    : option miembros_equipo_row :=
  fetchone (fun r => Z.eqb (m_id r) id) (miembros_equipo db).
Definition SELECT_torneos_WHERE_id (id : Z) (db : DB) : option torneos_row :=
  fetchone (fun r => Z.eqb (t_id r) id) (torneos db).
Definition SELECT_inscripciones_WHERE_id (id : Z) (db : DB)
    : option inscripciones_row :=
  fetchone (fun r => Z.eqb (i_id r) id) (inscripciones db).
Definition SELECT_pagos_WHERE_id (id : Z) (db : DB) : option pagos_row :=
  fetchone (fun r => Z.eqb (p_id r) id) (pagos db).
Definition SELECT_partidos_WHERE_id (id : Z) (db : DB) : option partidos_row :=
  fetchone (fun r => Z.eqb (pa_id r) id) (partidos db).

End Sql.

(** ** Connection layer

    A handler receives the connection that [get_db] yields.  [sqlite3] opens
    a transaction before the first [INSERT], [UPDATE] or [DELETE]; what the
    statements did stays pending until [commit], and [close] (the [finally]
    of [get_db]) drops what is still pending.  A handler is a computation
    over the connection that returns or raises. *)

Inductive exn :=
| HTTPException (status_code : Z) (detail : string)
| sqlite3_IntegrityError
| TypeError.

Inductive outcome (A : Type) :=
| Returns (a : A)
| Raises (e : exn).
Arguments Returns {A} _.
Arguments Raises {A} _.

Record connection := mk_connection {
  committed : DB;
  pending : DB }.

Definition handler (A : Type) := connection -> outcome A * connection.

Definition ret {A} (a : A) : handler A := fun c => (Returns a, c).

Definition raise {A} (e : exn) : handler A := fun c => (Raises e, c).

Definition bind {A B} (m : handler A) (k : A -> handler B) : handler B :=
  fun c =>
    match m c with
    | (Returns a, c') => k a c'
    | (Raises e, c') => (Raises e, c')
    end.

Notation "x <- m ;; k" := (bind m (fun x => k))
  (at level 61, m at next level, right associativity).
Notation "m ;;; k" := (bind m (fun _ => k))
  (at level 61, right associativity).

(** [cursor.execute(stmt, params)] for a data-modifying statement: the
    statement runs on the pending state, or raises and leaves it as it was. *)
Definition execute {A} (stmt : DB -> Sql.result A) : handler A :=
  fun c =>
    match stmt (pending c) with
    | Sql.Done db a => (Returns a, mk_connection (committed c) db)
    | Sql.IntegrityError => (Raises sqlite3_IntegrityError, c)
    end.

(** [execute("SELECT ...").fetchone()] / [.fetchall()]: reads what this
    connection sees, its own pending changes included. *)
Definition query {A} (q : DB -> A) : handler A :=
  fun c => (Returns (q (pending c)), c).

(** [db.commit()] *)
Definition commit : handler unit :=
  fun c => (Returns tt, mk_connection (pending c) (pending c)).

(** [try: body except sqlite3.IntegrityError: on_error] *)
Definition try_except_IntegrityError {A} (body on_error : handler A)
    : handler A :=
  fun c =>
    match body c with
    | (Raises sqlite3_IntegrityError, c') => on_error c'
    | r => r
    end.

(** [get_db]: connect, run the handler, close.  The database file afterwards
    holds what was committed. *)
Definition get_db {A} (h : handler A) (db : DB) : outcome A * DB :=
  let (o, c) := h (mk_connection db db) in
  (o, committed c).

(** A response class built from [fetchone()]'s result unpacked as keyword
    arguments: unpacking [None] is a [TypeError]. *)
Definition construct {R A} (model : R -> A) (row : option R) : handler A :=
  match row with
  | Some r => ret (model r)
  | None => raise TypeError
  end.

Definition HTTP_200_OK : Z := 200.
Definition HTTP_201_CREATED : Z := 201.
Definition HTTP_204_NO_CONTENT : Z := 204.
Definition HTTP_400_BAD_REQUEST : Z := 400.
Definition HTTP_404_NOT_FOUND : Z := 404.
Definition HTTP_422_UNPROCESSABLE_ENTITY : Z := 422.
Definition HTTP_500_INTERNAL_SERVER_ERROR : Z := 500.

(** ** Pydantic schemas

    A [...Create] class that only says [pass] is its base.  Each response
    class is built from a row unpacked as keyword arguments; a column the
    class does not declare is ignored. *)

Record UsuarioBase := mk_UsuarioBase {
  ub_nombre : string;
  ub_nickname : string;
  ub_email : string }.

Record UsuarioCreate := mk_UsuarioCreate {
  uc_nombre : string;
  uc_nickname : string;
  uc_email : string;
  uc_pwd_hash : string }.

Record Usuario := mk_Usuario {
  us_id : Z;
  us_nombre : string;
  us_nickname : string;
  us_email : string;
  us_fecha_reg : string }.

Record EquipoBase := mk_EquipoBase {
  eb_nombre : string;
  eb_id_capitan : Z }.
Definition EquipoCreate := EquipoBase.

Record Equipo := mk_Equipo {
  eq_id : Z;
  eq_nombre : string;
  eq_id_capitan : Z }.

Record MiembroBase := mk_MiembroBase {
  mb_id_equipo : Z;
  mb_id_usuario : Z;
  mb_rol : string }.
Definition MiembroCreate := MiembroBase.

Record Miembro := mk_Miembro {
  mi_id : Z;
  mi_id_equipo : Z;
  mi_id_usuario : Z;
  mi_rol : string }.

Record TorneoBase := mk_TorneoBase {
  tb_nombre : string;
  tb_descripcion : option string;
  tb_fecha_inicio : string;
  tb_fecha_fin : string;
  tb_max_equipos : Z;
  tb_estado : option string }.
Definition TorneoCreate := TorneoBase.

Record Torneo := mk_Torneo {
  to_id : Z;
  to_nombre : string;
  to_descripcion : option string;
  to_fecha_inicio : string;
  to_fecha_fin : string;
  to_max_equipos : Z;
  to_estado : option string }.

Record InscripcionBase := mk_InscripcionBase {
  ib_id_equipo : Z;
  ib_id_torneo : Z }.
Definition InscripcionCreate := InscripcionBase.

Record Inscripcion := mk_Inscripcion {
  in_id : Z;
  in_id_equipo : Z;
  in_id_torneo : Z;
  in_fecha_inscripcion : string }.

Record PagoBase := mk_PagoBase {
  pb_id_equipo : Z;
  pb_id_torneo : Z;
  pb_monto_cent : Z;
  pb_estado : option string }.
Definition PagoCreate := PagoBase.

Record Pago := mk_Pago {
  pg_id : Z;
  pg_id_equipo : Z;
  pg_id_torneo : Z;
  pg_monto_cent : Z;
  pg_estado : option string;
  pg_fecha_pago : string }.

Record PartidoBase := mk_PartidoBase {
  ptb_id_torneo : Z;
  ptb_equipo_local : Z;
  ptb_equipo_visitante : Z;
  ptb_fecha : string;
  ptb_resultado_local : option Z;
  ptb_resultado_visitante : option Z }.
Definition PartidoCreate := PartidoBase.

Record Partido := mk_Partido {
  pt_id : Z;
  pt_id_torneo : Z;
  pt_equipo_local : Z;
  pt_equipo_visitante : Z;
  pt_fecha : string;
  pt_resultado_local : option Z;
  pt_resultado_visitante : option Z }.

Definition Usuario_of_row (r : usuarios_row) : Usuario :=
  mk_Usuario (u_id r) (u_nombre r) (u_nickname r) (u_email r) (u_fecha_reg r).
Definition Equipo_of_row (r : equipos_row) : Equipo :=
  mk_Equipo (e_id r) (e_nombre r) (e_id_capitan r).
Definition Miembro_of_row (r : miembros_equipo_row) : Miembro :=
  mk_Miembro (m_id r) (m_id_equipo r) (m_id_usuario r) (m_rol r).
Definition Torneo_of_row (r : torneos_row) : Torneo :=
  mk_Torneo (t_id r) (t_nombre r) (t_descripcion r) (t_fecha_inicio r)
            (t_fecha_fin r) (t_max_equipos r) (Some (t_estado r)).
Definition Inscripcion_of_row (r : inscripciones_row) : Inscripcion :=
  mk_Inscripcion (i_id r) (i_id_equipo r) (i_id_torneo r)
                 (i_fecha_inscripcion r).
Definition Pago_of_row (r : pagos_row) : Pago :=
  mk_Pago (p_id r) (p_id_equipo r) (p_id_torneo r) (p_monto_cent r)
          (Some (p_estado r)) (p_fecha_pago r).
Definition Partido_of_row (r : partidos_row) : Partido :=
  mk_Partido (pa_id r) (pa_id_torneo r) (pa_equipo_local r)
             (pa_equipo_visitante r) (pa_fecha r) (pa_resultado_local r)
             (pa_resultado_visitante r).

(** The [Field] constraints ([max_length], [min_length], [pattern], [gt],
    [ge]); a payload that fails them never reaches its handler. *)
Definition max_length (n : nat) (s : string) : bool :=
  Nat.leb (String.length s) n.
Definition min_length (n : nat) (s : string) : bool :=
  Nat.leb n (String.length s).
Definition optional_pattern (values : list string) (s : option string) : bool :=
  match s with
  | None => true
  | Some v => text_in v values
  end.

Definition UsuarioBase_valid (u : UsuarioBase) : bool :=
  max_length 100 (ub_nombre u) && max_length 100 (ub_nickname u).
Definition UsuarioCreate_valid (u : UsuarioCreate) : bool :=
  max_length 100 (uc_nombre u) && max_length 100 (uc_nickname u)
  && min_length 60 (uc_pwd_hash u).
Definition EquipoBase_valid (t : EquipoBase) : bool :=
  max_length 100 (eb_nombre t).
Definition MiembroBase_valid (m : MiembroBase) : bool :=
  text_in (mb_rol m) rol_values.
Definition TorneoBase_valid (t : TorneoBase) : bool :=
  (0 <? tb_max_equipos t)%Z
  && optional_pattern torneo_estado_values (tb_estado t).
Definition PagoBase_valid (p : PagoBase) : bool :=
  (0 <=? pb_monto_cent p)%Z
  && optional_pattern pago_estado_values (pb_estado p).

(** ** Handlers *)

Definition not_found {A} (detail : string) : handler A :=
  raise (HTTPException HTTP_404_NOT_FOUND detail).
Definition bad_request {A} (detail : string) : handler A :=
  raise (HTTPException HTTP_400_BAD_REQUEST detail).

(** *** Usuarios *)

Definition create_user (now : string) (u : UsuarioCreate) : handler Usuario :=
  lastrowid <-
    try_except_IntegrityError
      (id <- execute (Sql.INSERT_INTO_usuarios now (uc_nombre u) (uc_nickname u)
                        (uc_email u) (uc_pwd_hash u)) ;;
       commit ;;;
       ret id)
      (bad_request "Email duplicado o datos inválidos") ;;
  row <- query (Sql.SELECT_usuarios_WHERE_id lastrowid) ;;
  construct Usuario_of_row row.

Definition list_users : handler (list Usuario) :=
  rs <- query (fun db => rows (usuarios db)) ;;
  ret (map Usuario_of_row rs).

Definition get_user (user_id : Z) : handler Usuario :=
  row <- query (Sql.SELECT_usuarios_WHERE_id user_id) ;;
  match row with
  | None => not_found "Usuario no encontrado"
  | Some r => ret (Usuario_of_row r)
  end.

Definition update_user (user_id : Z) (u : UsuarioBase) : handler Usuario :=
  rowcount <- execute (Sql.UPDATE_usuarios (ub_nombre u) (ub_nickname u)
                         (ub_email u) user_id) ;;
  if Z.eqb rowcount 0 then not_found "Usuario no encontrado"
  else
    commit ;;;
    row <- query (Sql.SELECT_usuarios_WHERE_id user_id) ;;
    construct Usuario_of_row row.

Definition delete_user (user_id : Z) : handler unit :=
  rowcount <- execute (Sql.DELETE_FROM_usuarios user_id) ;;
  if Z.eqb rowcount 0 then not_found "Usuario no encontrado"
  else commit ;;; ret tt.

(** *** Equipos *)

Definition create_team (t : EquipoCreate) : handler Equipo :=
  lastrowid <-
    try_except_IntegrityError
      (id <- execute (Sql.INSERT_INTO_equipos (eb_nombre t) (eb_id_capitan t)) ;;
       commit ;;;
       ret id)
      (bad_request "Nombre duplicado o capitán inexistente") ;;
  row <- query (Sql.SELECT_equipos_WHERE_id lastrowid) ;;
  construct Equipo_of_row row.

Definition list_teams : handler (list Equipo) :=
  rs <- query (fun db => rows (equipos db)) ;;
  ret (map Equipo_of_row rs).

Definition get_team (team_id : Z) : handler Equipo :=
  row <- query (Sql.SELECT_equipos_WHERE_id team_id) ;;
  match row with
  | None => not_found "Equipo no encontrado"
  | Some r => ret (Equipo_of_row r)
  end.

Definition update_team (team_id : Z) (t : EquipoBase) : handler Equipo :=
  rowcount <- execute (Sql.UPDATE_equipos (eb_nombre t) (eb_id_capitan t)
                         team_id) ;;
  if Z.eqb rowcount 0 then not_found "Equipo no encontrado"
  else
    commit ;;;
    row <- query (Sql.SELECT_equipos_WHERE_id team_id) ;;
    construct Equipo_of_row row.

Definition delete_team (team_id : Z) : handler unit :=
  rowcount <- execute (Sql.DELETE_FROM_equipos team_id) ;;
  if Z.eqb rowcount 0 then not_found "Equipo no encontrado"
  else commit ;;; ret tt.

(** *** Miembros de equipo *)

Definition add_member (m : MiembroCreate) : handler Miembro :=
  lastrowid <-
    try_except_IntegrityError
      (id <- execute (Sql.INSERT_INTO_miembros_equipo (mb_id_equipo m)
                        (mb_id_usuario m) (mb_rol m)) ;;
       commit ;;;
       ret id)
      (bad_request "Duplicado o datos inválidos (revisa equipo/usuario/rol)") ;;
  row <- query (Sql.SELECT_miembros_equipo_WHERE_id lastrowid) ;;
  construct Miembro_of_row row.

Definition list_members : handler (list Miembro) :=
  rs <- query (fun db => rows (miembros_equipo db)) ;;
  ret (map Miembro_of_row rs).

Definition delete_member (member_id : Z) : handler unit :=
  rowcount <- execute (Sql.DELETE_FROM_miembros_equipo member_id) ;;
  if Z.eqb rowcount 0 then not_found "Miembro no encontrado"
  else commit ;;; ret tt.

(** *** Torneos *)

Definition create_tournament (t : TorneoCreate) : handler Torneo :=
  lastrowid <- execute (Sql.INSERT_INTO_torneos (tb_nombre t) (tb_descripcion t)
                          (tb_fecha_inicio t) (tb_fecha_fin t)
                          (tb_max_equipos t) (tb_estado t)) ;;
  commit ;;;
  row <- query (Sql.SELECT_torneos_WHERE_id lastrowid) ;;
  construct Torneo_of_row row.

Definition list_tournaments : handler (list Torneo) :=
  rs <- query (fun db => rows (torneos db)) ;;
  ret (map Torneo_of_row rs).

Definition get_tournament (tournament_id : Z) : handler Torneo :=
  row <- query (Sql.SELECT_torneos_WHERE_id tournament_id) ;;
  match row with
  | None => not_found "Torneo no encontrado"
  | Some r => ret (Torneo_of_row r)
  end.

Definition update_tournament (tournament_id : Z) (t : TorneoBase)
    : handler Torneo :=
  rowcount <- execute (Sql.UPDATE_torneos (tb_nombre t) (tb_descripcion t)
                         (tb_fecha_inicio t) (tb_fecha_fin t)
                         (tb_max_equipos t) (tb_estado t) tournament_id) ;;
  if Z.eqb rowcount 0 then not_found "Torneo no encontrado"
  else
    commit ;;;
    row <- query (Sql.SELECT_torneos_WHERE_id tournament_id) ;;
    construct Torneo_of_row row.

Definition delete_tournament (tournament_id : Z) : handler unit :=
  rowcount <- execute (Sql.DELETE_FROM_torneos tournament_id) ;;
  if Z.eqb rowcount 0 then not_found "Torneo no encontrado"
  else commit ;;; ret tt.

(** *** Inscripciones *)

Definition create_inscription (now : string) (i : InscripcionCreate)
    : handler Inscripcion :=
  lastrowid <-
    try_except_IntegrityError
      (id <- execute (Sql.INSERT_INTO_inscripciones now (ib_id_equipo i)
                        (ib_id_torneo i)) ;;
       commit ;;;
       ret id)
      (bad_request "Inscripción duplicada o datos inválidos") ;;
  row <- query (Sql.SELECT_inscripciones_WHERE_id lastrowid) ;;
  construct Inscripcion_of_row row.

Definition list_inscriptions : handler (list Inscripcion) :=
  rs <- query (fun db => rows (inscripciones db)) ;;
  ret (map Inscripcion_of_row rs).

Definition delete_inscription (insc_id : Z) : handler unit :=
  rowcount <- execute (Sql.DELETE_FROM_inscripciones insc_id) ;;
  if Z.eqb rowcount 0 then not_found "Inscripción no encontrada"
  else commit ;;; ret tt.

(** *** Pagos *)

Definition create_payment (now : string) (p : PagoCreate) : handler Pago :=
  lastrowid <-
    try_except_IntegrityError
      (id <- execute (Sql.INSERT_INTO_pagos now (pb_id_equipo p) (pb_id_torneo p)
                        (pb_monto_cent p) (pb_estado p)) ;;
       commit ;;;
       ret id)
      (bad_request "Pago inválido o duplicado") ;;
  row <- query (Sql.SELECT_pagos_WHERE_id lastrowid) ;;
  construct Pago_of_row row.

Definition list_payments : handler (list Pago) :=
  rs <- query (fun db => rows (pagos db)) ;;
  ret (map Pago_of_row rs).

Definition delete_payment (payment_id : Z) : handler unit :=
  rowcount <- execute (Sql.DELETE_FROM_pagos payment_id) ;;
  if Z.eqb rowcount 0 then not_found "Pago no encontrado"
  else commit ;;; ret tt.

(** *** Partidos *)

Definition create_match (m : PartidoCreate) : handler Partido :=
  lastrowid <-
    try_except_IntegrityError
      (id <- execute (Sql.INSERT_INTO_partidos (ptb_id_torneo m)
                        (ptb_equipo_local m) (ptb_equipo_visitante m)
                        (ptb_fecha m) (ptb_resultado_local m)
                        (ptb_resultado_visitante m)) ;;
       commit ;;;
       ret id)
      (bad_request "Datos de partido inválidos") ;;
  row <- query (Sql.SELECT_partidos_WHERE_id lastrowid) ;;
  construct Partido_of_row row.

Definition list_matches : handler (list Partido) :=
  rs <- query (fun db => rows (partidos db)) ;;
  ret (map Partido_of_row rs).

Definition delete_match (match_id : Z) : handler unit :=
  rowcount <- execute (Sql.DELETE_FROM_partidos match_id) ;;
  if Z.eqb rowcount 0 then not_found "Partido no encontrado"
  else commit ;;; ret tt.

(** ** The application: routes, requests and responses *)

Inductive request :=
| POST_users (u : UsuarioCreate)
| GET_users
| GET_users_id (user_id : Z)
| PUT_users_id (user_id : Z) (u : UsuarioBase)
| DELETE_users_id (user_id : Z)
| POST_teams (t : EquipoCreate)
| GET_teams
| GET_teams_id (team_id : Z)
| PUT_teams_id (team_id : Z) (t : EquipoBase)
| DELETE_teams_id (team_id : Z)
| POST_members (m : MiembroCreate)
| GET_members
| DELETE_members_id (member_id : Z)
| POST_tournaments (t : TorneoCreate)
| GET_tournaments
| GET_tournaments_id (tournament_id : Z)
| PUT_tournaments_id (tournament_id : Z) (t : TorneoBase)
| DELETE_tournaments_id (tournament_id : Z)
| POST_inscriptions (i : InscripcionCreate)
| GET_inscriptions
| DELETE_inscriptions_id (insc_id : Z)
| POST_payments (p : PagoCreate)
| GET_payments
| DELETE_payments_id (payment_id : Z)
| POST_matches (m : PartidoCreate)
| GET_matches
| DELETE_matches_id (match_id : Z).

(** What a handler hands to its [response_model]. *)
Inductive content :=
| a_Usuario (x : Usuario)
| a_Equipo (x : Equipo)
| a_Miembro (x : Miembro)
| a_Torneo (x : Torneo)
| a_Inscripcion (x : Inscripcion)
| a_Pago (x : Pago)
| a_Partido (x : Partido)
| List_Usuario (xs : list Usuario)
| List_Equipo (xs : list Equipo)
| List_Miembro (xs : list Miembro)
| List_Torneo (xs : list Torneo)
| List_Inscripcion (xs : list Inscripcion)
| List_Pago (xs : list Pago)
| List_Partido (xs : list Partido)
| no_content.

(** What the client gets: the handler's value under the route's status
    code; the [detail] of an [HTTPException] under its status code; the 422
    of a payload that fails validation; the bare 500 the server answers when
    any other exception leaves the handler. *)
Inductive response :=
| JSONResponse (status_code : Z) (body : content)
| ErrorDetail (status_code : Z) (detail : string)
| ValidationErrors
| InternalServerError.

Definition status_code_of (r : response) : Z :=
  match r with
  | JSONResponse c _ => c
  | ErrorDetail c _ => c
  | ValidationErrors => HTTP_422_UNPROCESSABLE_ENTITY
  | InternalServerError => HTTP_500_INTERNAL_SERVER_ERROR
  end.

Definition respond {A} (success : Z) (wrap : A -> content) (o : outcome A)
    : response :=
  match o with
  | Returns a => JSONResponse success (wrap a)
  | Raises (HTTPException c d) => ErrorDetail c d
  | Raises _ => InternalServerError
  end.

(** A route: validate the payload, then run the handler on a connection of
    its own. *)
Definition route {A} (valid : bool) (success : Z) (wrap : A -> content)
    (h : handler A) (db : DB) : response * DB :=
  if valid then
    let (o, db') := get_db h db in (respond success wrap o, db')
  else (ValidationErrors, db).

Definition app (now : string) (r : request) (db : DB) : response * DB :=
  match r with
  | POST_users u =>
      route (UsuarioCreate_valid u) HTTP_201_CREATED a_Usuario
            (create_user now u) db
  | GET_users => route true HTTP_200_OK List_Usuario list_users db
  | GET_users_id user_id =>
      route true HTTP_200_OK a_Usuario (get_user user_id) db
  | PUT_users_id user_id u =>
      route (UsuarioBase_valid u) HTTP_200_OK a_Usuario
            (update_user user_id u) db
  | DELETE_users_id user_id =>
      route true HTTP_204_NO_CONTENT (fun _ => no_content)
            (delete_user user_id) db
  | POST_teams t =>
      route (EquipoBase_valid t) HTTP_201_CREATED a_Equipo (create_team t) db
  | GET_teams => route true HTTP_200_OK List_Equipo list_teams db
  | GET_teams_id team_id =>
      route true HTTP_200_OK a_Equipo (get_team team_id) db
  | PUT_teams_id team_id t =>
      route (EquipoBase_valid t) HTTP_200_OK a_Equipo (update_team team_id t) db
  | DELETE_teams_id team_id =>
      route true HTTP_204_NO_CONTENT (fun _ => no_content)
            (delete_team team_id) db
  | POST_members m =>
      route (MiembroBase_valid m) HTTP_201_CREATED a_Miembro (add_member m) db
  | GET_members => route true HTTP_200_OK List_Miembro list_members db
  | DELETE_members_id member_id =>
      route true HTTP_204_NO_CONTENT (fun _ => no_content)
            (delete_member member_id) db
  | POST_tournaments t =>
      route (TorneoBase_valid t) HTTP_201_CREATED a_Torneo
            (create_tournament t) db
  | GET_tournaments => route true HTTP_200_OK List_Torneo list_tournaments db
  | GET_tournaments_id tournament_id =>
      route true HTTP_200_OK a_Torneo (get_tournament tournament_id) db
  | PUT_tournaments_id tournament_id t =>
      route (TorneoBase_valid t) HTTP_200_OK a_Torneo
            (update_tournament tournament_id t) db
  | DELETE_tournaments_id tournament_id =>
      route true HTTP_204_NO_CONTENT (fun _ => no_content)
            (delete_tournament tournament_id) db
  | POST_inscriptions i =>
      route true HTTP_201_CREATED a_Inscripcion (create_inscription now i) db
  | GET_inscriptions =>
      route true HTTP_200_OK List_Inscripcion list_inscriptions db
  | DELETE_inscriptions_id insc_id =>
      route true HTTP_204_NO_CONTENT (fun _ => no_content)
            (delete_inscription insc_id) db
  | POST_payments p =>
      route (PagoBase_valid p) HTTP_201_CREATED a_Pago (create_payment now p) db
  | GET_payments => route true HTTP_200_OK List_Pago list_payments db
  | DELETE_payments_id payment_id =>
      route true HTTP_204_NO_CONTENT (fun _ => no_content)
            (delete_payment payment_id) db
  | POST_matches m =>
      route true HTTP_201_CREATED a_Partido (create_match m) db
  | GET_matches => route true HTTP_200_OK List_Partido list_matches db
  | DELETE_matches_id match_id =>
      route true HTTP_204_NO_CONTENT (fun _ => no_content)
            (delete_match match_id) db
  end.

(** Serving a sequence of requests, each with its clock reading, one after
    the other (SQLite serialises the writes). *)
Fixpoint serve (reqs : list (string * request)) (db : DB)
    : list response * DB :=
  match reqs with
  | [] => ([], db)
  | (now, r) :: rest =>
      let (resp, db') := app now r db in
      let (resps, db'') := serve rest db' in
      (resp :: resps, db'')
  end.

(** The states the database file can be in: what [initialize_database]
    creates, and what a request leaves behind. *)
Inductive reachable : DB -> Prop :=
| reachable_init : reachable initialize_database
| reachable_step now r db :
    reachable db -> reachable (snd (app now r db)).

(** The data-modifying statement a request executes once its payload is
    valid, run on the state the request finds; [None] for the read-only
    routes. *)
Definition statement (now : string) (r : request) (db : DB)
    : option (Sql.result Z) :=
  match r with
  | POST_users u =>
      Some (Sql.INSERT_INTO_usuarios now (uc_nombre u) (uc_nickname u)
              (uc_email u) (uc_pwd_hash u) db)
  | PUT_users_id user_id u =>
      Some (Sql.UPDATE_usuarios (ub_nombre u) (ub_nickname u) (ub_email u)
              user_id db)
  | DELETE_users_id user_id => Some (Sql.DELETE_FROM_usuarios user_id db)
  | POST_teams t =>
      Some (Sql.INSERT_INTO_equipos (eb_nombre t) (eb_id_capitan t) db)
  | PUT_teams_id team_id t =>
      Some (Sql.UPDATE_equipos (eb_nombre t) (eb_id_capitan t) team_id db)
  | DELETE_teams_id team_id => Some (Sql.DELETE_FROM_equipos team_id db)
  | POST_members m =>
      Some (Sql.INSERT_INTO_miembros_equipo (mb_id_equipo m) (mb_id_usuario m)
              (mb_rol m) db)
  | DELETE_members_id member_id =>
      Some (Sql.DELETE_FROM_miembros_equipo member_id db)
  | POST_tournaments t =>
      Some (Sql.INSERT_INTO_torneos (tb_nombre t) (tb_descripcion t)
              (tb_fecha_inicio t) (tb_fecha_fin t) (tb_max_equipos t)
              (tb_estado t) db)
  | PUT_tournaments_id tournament_id t =>
      Some (Sql.UPDATE_torneos (tb_nombre t) (tb_descripcion t)
              (tb_fecha_inicio t) (tb_fecha_fin t) (tb_max_equipos t)
              (tb_estado t) tournament_id db)
  | DELETE_tournaments_id tournament_id =>
      Some (Sql.DELETE_FROM_torneos tournament_id db)
  | POST_inscriptions i =>
      Some (Sql.INSERT_INTO_inscripciones now (ib_id_equipo i) (ib_id_torneo i)
              db)
  | DELETE_inscriptions_id insc_id =>
      Some (Sql.DELETE_FROM_inscripciones insc_id db)
  | POST_payments p =>
      Some (Sql.INSERT_INTO_pagos now (pb_id_equipo p) (pb_id_torneo p)
              (pb_monto_cent p) (pb_estado p) db)
  | DELETE_payments_id payment_id => Some (Sql.DELETE_FROM_pagos payment_id db)
  | POST_matches m =>
      Some (Sql.INSERT_INTO_partidos (ptb_id_torneo m) (ptb_equipo_local m)
              (ptb_equipo_visitante m) (ptb_fecha m) (ptb_resultado_local m)
              (ptb_resultado_visitante m) db)
  | DELETE_matches_id match_id => Some (Sql.DELETE_FROM_partidos match_id db)
  | GET_users | GET_users_id _ | GET_teams | GET_teams_id _ | GET_members
  | GET_tournaments | GET_tournaments_id _ | GET_inscriptions | GET_payments
  | GET_matches => None
  end.

Definition payload_valid (r : request) : bool :=
  match r with
  | POST_users u => UsuarioCreate_valid u
  | PUT_users_id _ u => UsuarioBase_valid u
  | POST_teams t | PUT_teams_id _ t => EquipoBase_valid t
  | POST_members m => MiembroBase_valid m
  | POST_tournaments t | PUT_tournaments_id _ t => TorneoBase_valid t
  | POST_payments p => PagoBase_valid p
  | _ => true
  end.

(** The request reaches its statement and the statement violates a
    constraint. *)
Definition violates_constraint (now : string) (r : request) (db : DB) : bool :=
  payload_valid r
  && match statement now r db with
     | Some res => Sql.raises res
     | None => false
     end.

(** The routes whose handler wraps its [execute] in
    [try: ... except sqlite3.IntegrityError]. *)
Definition catches_IntegrityError (r : request) : bool :=
  match r with
  | POST_users _ | POST_teams _ | POST_members _ | POST_inscriptions _
  | POST_payments _ | POST_matches _ => true
  | _ => false
  end.

(** ** Vocabulary of the properties *)

(** *** The handler templates

    Every handler of [main.py] is an instance of one of these; the
    properties are proved once per template. *)

Definition inserting_caught {R A} (stmt : DB -> Sql.result Z)
    (select : Z -> DB -> option R) (model : R -> A) (detail : string)
    : handler A :=
  lastrowid <-
    try_except_IntegrityError
      (id <- execute stmt ;; commit ;;; ret id)
      (bad_request detail) ;;
  row <- query (select lastrowid) ;;
  construct model row.

Definition inserting {R A} (stmt : DB -> Sql.result Z)
    (select : Z -> DB -> option R) (model : R -> A) : handler A :=
  lastrowid <- execute stmt ;;
  commit ;;;
  row <- query (select lastrowid) ;;
  construct model row.

Definition updating {R A} (stmt : DB -> Sql.result Z)
    (select : DB -> option R) (model : R -> A) (detail : string) : handler A :=
  rowcount <- execute stmt ;;
  if Z.eqb rowcount 0 then not_found detail
  else
    commit ;;;
    row <- query select ;;
    construct model row.

Definition deleting (stmt : DB -> Sql.result Z) (detail : string)
    : handler unit :=
  rowcount <- execute stmt ;;
  if Z.eqb rowcount 0 then not_found detail
  else commit ;;; ret tt.

Definition fetching {R A} (select : DB -> option R) (model : R -> A)
    (detail : string) : handler A :=
  row <- query select ;;
  match row with
  | None => not_found detail
  | Some r => ret (model r)
  end.

Definition listing {R A} (tbl : DB -> table R) (model : R -> A)
    : handler (list A) :=
  rs <- query (fun db => rows (tbl db)) ;;
  ret (map model rs).

(** A handler that leaves the file untouched whenever it raises an
    [HTTPException] or lets an [IntegrityError] out. *)
Definition raises_before_commit {A} (h : handler A) : Prop :=
  forall db,
    match fst (get_db h db) with
    | Raises (HTTPException _ _) | Raises sqlite3_IntegrityError =>
        snd (get_db h db) = db
    | _ => True
    end.

(** *** State predicates *)

Definition is_captain_of (team : Z) (m : miembros_equipo_row) : bool :=
  Z.eqb (m_id_equipo m) team && String.eqb (m_rol m) "capitan".

(** At most one ['capitan'] row per team. *)
Definition one_captain_per_team (db : DB) : Prop :=
  forall team, (count_rows (is_captain_of team) (miembros_equipo db) <= 1)%Z.

(** Every match has two different teams. *)
Definition home_away_distinct (db : DB) : Prop :=
  Forall (fun p => pa_equipo_local p <> pa_equipo_visitante p)
         (rows (partidos db)).

Definition is_400_or_404 (c : Z) : Prop :=
  c = HTTP_400_BAD_REQUEST \/ c = HTTP_404_NOT_FOUND.

(** *** Example data: two users, two teams, a tournament, a match *)

Definition example_hash : string :=
  "$2b$12$ABCDEFGHIJKLMNO.abcdefghijklmno.1234567890ABCDEFGHIJKL".

Definition ana : UsuarioCreate :=
  mk_UsuarioCreate "Ana García" "agarcia" "ana.garcia@example.com" example_hash.
Definition juan : UsuarioCreate :=
  mk_UsuarioCreate "Juan Pérez" "jperez" "juan.perez@example.com" example_hash.

Definition copa : TorneoCreate :=
  mk_TorneoBase "Copa Verano 2024" (Some "Torneo de fútbol 5 amateur.")
    "2024-07-01T18:00:00Z" "2024-07-31T22:00:00Z" 16 (Some "programado").

Definition example_clock : string := "2024-06-20 11:00:00".

(** Two users. *)
Definition db_users : DB :=
  Eval vm_compute in
  snd (serve [(example_clock, POST_users ana); (example_clock, POST_users juan)]
             initialize_database).

(** Two users, each the captain of a team; user 1 holds the ['capitan']
    membership of team 1 and is a ['jugador'] of team 2. *)
Definition db_teams : DB :=
  Eval vm_compute in
  snd (serve [(example_clock, POST_teams (mk_EquipoBase "Los Campeones" 1));
              (example_clock, POST_teams (mk_EquipoBase "Los Retadores" 2));
              (example_clock, POST_members (mk_MiembroBase 1 1 "capitan"));
              (example_clock, POST_members (mk_MiembroBase 2 1 "jugador"))]
             db_users).

(** The same with a tournament, both teams enrolled, a payment, and a match
    between the two teams. *)
Definition db_match : DB :=
  Eval vm_compute in
  snd (serve [(example_clock, POST_tournaments copa);
              (example_clock, POST_inscriptions (mk_InscripcionBase 1 1));
              (example_clock, POST_inscriptions (mk_InscripcionBase 2 1));
              (example_clock, POST_payments (mk_PagoBase 1 1 5000 (Some "pendiente")));
              (example_clock, POST_matches
                 (mk_PartidoBase 1 1 2 "2024-07-05T20:00:00Z" None None))]
             db_teams).

(** *** Get-by-id

    What a get-by-id route owes for the table [tbl] it reads: no change to
    the file; a stored row with the path id as the body when there is one;
    404 exactly when there is none. *)
Definition answers_get_by_id {R} (id_of : R -> Z) (tbl : table R)
    (body_of : R -> content) (id : Z) (db : DB) (out : response * DB) : Prop :=
  snd out = db
  /\ ((exists r, In r (rows tbl) /\ id_of r = id) ->
      exists r, In r (rows tbl) /\ id_of r = id
                /\ fst out = JSONResponse HTTP_200_OK (body_of r))
  /\ (status_code_of (fst out) = HTTP_404_NOT_FOUND <->
      forall r, In r (rows tbl) -> id_of r <> id).

(** *** Create followed by get *)

Definition is_create (r : request) : bool :=
  match r with
  | POST_users _ | POST_teams _ | POST_members _ | POST_tournaments _
  | POST_inscriptions _ | POST_payments _ | POST_matches _ => true
  | _ => false
  end.

(** The body is the response class built from the row the table holds under
    the body's id. *)
Definition stored_row (db : DB) (body : content) : Prop :=
  match body with
  | a_Usuario x =>
      exists r, Sql.SELECT_usuarios_WHERE_id (us_id x) db = Some r
                /\ x = Usuario_of_row r
  | a_Equipo x =>
      exists r, Sql.SELECT_equipos_WHERE_id (eq_id x) db = Some r
                /\ x = Equipo_of_row r
  | a_Miembro x =>
      exists r, Sql.SELECT_miembros_equipo_WHERE_id (mi_id x) db = Some r
                /\ x = Miembro_of_row r
  | a_Torneo x =>
      exists r, Sql.SELECT_torneos_WHERE_id (to_id x) db = Some r
                /\ x = Torneo_of_row r
  | a_Inscripcion x =>
      exists r, Sql.SELECT_inscripciones_WHERE_id (in_id x) db = Some r
                /\ x = Inscripcion_of_row r
  | a_Pago x =>
      exists r, Sql.SELECT_pagos_WHERE_id (pg_id x) db = Some r
                /\ x = Pago_of_row r
  | a_Partido x =>
      exists r, Sql.SELECT_partidos_WHERE_id (pt_id x) db = Some r
                /\ x = Partido_of_row r
  | _ => False
  end.

(** The body's id is the id of no row of its table in [db]. *)
Definition newly_assigned (db : DB) (body : content) : Prop :=
  match body with
  | a_Usuario x => forall r, In r (rows (usuarios db)) -> u_id r <> us_id x
  | a_Equipo x => forall r, In r (rows (equipos db)) -> e_id r <> eq_id x
  | a_Miembro x =>
      forall r, In r (rows (miembros_equipo db)) -> m_id r <> mi_id x
  | a_Torneo x => forall r, In r (rows (torneos db)) -> t_id r <> to_id x
  | a_Inscripcion x =>
      forall r, In r (rows (inscripciones db)) -> i_id r <> in_id x
  | a_Pago x => forall r, In r (rows (pagos db)) -> p_id r <> pg_id x
  | a_Partido x => forall r, In r (rows (partidos db)) -> pa_id r <> pt_id x
  | _ => False
  end.

(** The get-by-id request for the entity in the body, for the three
    entities that have such a route. *)
Definition get_by_id_of (body : content) : option request :=
  match body with
  | a_Usuario x => Some (GET_users_id (us_id x))
  | a_Equipo x => Some (GET_teams_id (eq_id x))
  | a_Torneo x => Some (GET_tournaments_id (to_id x))
  | _ => None
  end.

(** What a successful [INSERT] did, table by table: the row went to the end
    of its table under the next rowid, which no earlier row has, and the
    re-fetch by [lastrowid] finds it. *)
Definition inserted {R} (id_of : R -> Z) (tbl : DB -> table R)
    (set : DB -> table R -> DB) (select : Z -> DB -> option R)
    (mk : Z -> R) (db db' : DB) (id : Z) : Prop :=
  id = next_rowid id_of (tbl db)
  /\ db' = set db (mk_table (rows (tbl db) ++ [mk id]) id)
  /\ select id db' = Some (mk id)
  /\ (forall r, In r (rows (tbl db)) -> id_of r <> id).

(** *** Cascades *)

(** The table minus the rows whose column [field] holds [v]. *)
Definition without {R} (field : R -> Z) (v : Z) (t : table R) : table R :=
  retain (fun r => negb (Z.eqb (field r) v)) t.

(** *** What the password hash can influence *)

Definition tmap {R} (f : R -> R) (t : table R) : table R :=
  mk_table (map f (rows t)) (seq t).

(** A user row with its hash blanked, and the database with every hash
    blanked: two databases with the same [public_view] differ at most in
    stored password hashes. *)
Definition redact (r : usuarios_row) : usuarios_row :=
  mk_usuario (u_id r) (u_nombre r) (u_nickname r) (u_email r) ""
             (u_fecha_reg r).

Definition public_view (db : DB) : DB :=
  set_usuarios db (tmap redact (usuarios db)).

Definition same_but_pwd_hash (db1 db2 : DB) : Prop :=
  public_view db1 = public_view db2.

(** Two requests that differ at most in the hash a create-user payload
    carries (and agree on whether that payload is well-formed). *)
Definition same_request_but_pwd_hash (r1 r2 : request) : Prop :=
  match r1, r2 with
  | POST_users u1, POST_users u2 =>
      uc_nombre u1 = uc_nombre u2 /\ uc_nickname u1 = uc_nickname u2
      /\ uc_email u1 = uc_email u2
      /\ UsuarioCreate_valid u1 = UsuarioCreate_valid u2
  | _, _ => r1 = r2
  end.

Definition same_calls_but_pwd_hash (a b : string * request) : Prop :=
  fst a = fst b /\ same_request_but_pwd_hash (snd a) (snd b).

(** Results of a statement, and of a handler, up to stored hashes. *)
Definition view_result {A} (r : Sql.result A) : Sql.result A :=
  match r with
  | Sql.Done db a => Sql.Done (public_view db) a
  | Sql.IntegrityError => Sql.IntegrityError
  end.

Definition hash_blind (stmt1 stmt2 : DB -> Sql.result Z) : Prop :=
  forall db1 db2,
    same_but_pwd_hash db1 db2 ->
    view_result (stmt1 db1) = view_result (stmt2 db2).

Definition hash_blind_read {R A} (select : DB -> option R) (model : R -> A)
    : Prop :=
  forall db1 db2,
    same_but_pwd_hash db1 db2 ->
    option_map model (select db1) = option_map model (select db2).

Definition hash_blind_handler {A} (h1 h2 : handler A) : Prop :=
  forall db1 db2,
    same_but_pwd_hash db1 db2 ->
    fst (get_db h1 db1) = fst (get_db h2 db2)
    /\ same_but_pwd_hash (snd (get_db h1 db1)) (snd (get_db h2 db2)).

(** The same four calls on the user routes, with two different hashes in
    the create-user payload. *)
Definition other_hash : string :=
  "$2b$12$ZYXWVUTSRQPONML.zyxwvutsrqponml.0987654321ZYXWVUTSRQPO".

Definition user_calls (pwd_hash : string) : list (string * request) :=
  [(example_clock,
    POST_users (mk_UsuarioCreate "Ana García" "agarcia"
                                 "ana.garcia@example.com" pwd_hash));
   (example_clock, GET_users);
   (example_clock, GET_users_id 1);
   (example_clock,
    PUT_users_id 1 (mk_UsuarioBase "Ana G." "agarcia"
                                   "ana.garcia@example.com"))].

(** *** Which status code, and why *)

(** How a response relates to the statement having raised ([raised]) and
    the handler catching [IntegrityError] ([catches]): 400 is the caught
    violation, the bare 500 the uncaught one. *)
Definition classified (catches raised : bool) (resp : response) : Prop :=
  ((exists d, resp = ErrorDetail HTTP_400_BAD_REQUEST d) <->
   raised = true /\ catches = true)
  /\ (resp = InternalServerError <-> raised = true /\ catches = false)
  /\ resp <> ValidationErrors.

(** The re-fetch after a statement that ran finds a row. *)
Definition refetch_after_insert {R} (stmt : DB -> Sql.result Z)
    (select : Z -> DB -> option R) : Prop :=
  forall db db' id, stmt db = Sql.Done db' id -> select id db' <> None.

Definition refetch_after_update {R} (stmt : DB -> Sql.result Z)
    (select : DB -> option R) : Prop :=
  forall db db' n,
    stmt db = Sql.Done db' n -> Z.eqb n 0 = false -> select db' <> None.

(** For the update and delete routes: whether the table holds a row with
    the path id. *)
Definition path_id_present (r : request) (db : DB) : option bool :=
  match r with
  | PUT_users_id id _ | DELETE_users_id id =>
      Some (has_row (fun x => Z.eqb (u_id x) id) (usuarios db))
  | PUT_teams_id id _ | DELETE_teams_id id =>
      Some (has_row (fun x => Z.eqb (e_id x) id) (equipos db))
  | PUT_tournaments_id id _ | DELETE_tournaments_id id =>
      Some (has_row (fun x => Z.eqb (t_id x) id) (torneos db))
  | DELETE_members_id id =>
      Some (has_row (fun x => Z.eqb (m_id x) id) (miembros_equipo db))
  | DELETE_inscriptions_id id =>
      Some (has_row (fun x => Z.eqb (i_id x) id) (inscripciones db))
  | DELETE_payments_id id =>
      Some (has_row (fun x => Z.eqb (p_id x) id) (pagos db))
  | DELETE_matches_id id =>
      Some (has_row (fun x => Z.eqb (pa_id x) id) (partidos db))
  | _ => None
  end.

(** *** Rows that exist *)

Definition user_exists (db : DB) (id : Z) : Prop :=
  exists u, In u (rows (usuarios db)) /\ u_id u = id.
Definition team_exists (db : DB) (id : Z) : Prop :=
  exists e, In e (rows (equipos db)) /\ e_id e = id.
Definition tournament_exists (db : DB) (id : Z) : Prop :=
  exists t, In t (rows (torneos db)) /\ t_id t = id.
Definition team_named (db : DB) (nombre : string) : Prop :=
  exists e, In e (rows (equipos db)) /\ e_nombre e = nombre.
Definition enrolled (db : DB) (team tournament : Z) : Prop :=
  exists i, In i (rows (inscripciones db))
            /\ i_id_equipo i = team /\ i_id_torneo i = tournament.
Definition captain_of_some_team (db : DB) (user : Z) : Prop :=
  exists e, In e (rows (equipos db)) /\ e_id_capitan e = user.

(** *** Deleting, listing *)

Definition is_delete (r : request) : bool :=
  match r with
  | DELETE_users_id _ | DELETE_teams_id _ | DELETE_members_id _
  | DELETE_tournaments_id _ | DELETE_inscriptions_id _ | DELETE_payments_id _
  | DELETE_matches_id _ => true
  | _ => false
  end.

(** The list route of the entity in a body, and a list body with one more
    entry at its end. *)
Definition list_route_of (body : content) : option request :=
  match body with
  | a_Usuario _ => Some GET_users
  | a_Equipo _ => Some GET_teams
  | a_Miembro _ => Some GET_members
  | a_Torneo _ => Some GET_tournaments
  | a_Inscripcion _ => Some GET_inscriptions
  | a_Pago _ => Some GET_payments
  | a_Partido _ => Some GET_matches
  | _ => None
  end.

Definition with_last (listed body : content) : content :=
  match listed, body with
  | List_Usuario xs, a_Usuario x => List_Usuario (xs ++ [x])
  | List_Equipo xs, a_Equipo x => List_Equipo (xs ++ [x])
  | List_Miembro xs, a_Miembro x => List_Miembro (xs ++ [x])
  | List_Torneo xs, a_Torneo x => List_Torneo (xs ++ [x])
  | List_Inscripcion xs, a_Inscripcion x => List_Inscripcion (xs ++ [x])
  | List_Pago xs, a_Pago x => List_Pago (xs ++ [x])
  | List_Partido xs, a_Partido x => List_Partido (xs ++ [x])
  | _, _ => no_content
  end.

(** *** Invariants of the reachable states *)

(** Primary keys: the ids of a table are pairwise different, positive, and
    at most the table's sequence value. *)
Definition keys_ok {R} (id_of : R -> Z) (t : table R) : Prop :=
  NoDup (map id_of (rows t))
  /\ Forall (fun r => (0 < id_of r <= seq t)%Z) (rows t).

Definition primary_keys_ok (db : DB) : Prop :=
  keys_ok u_id (usuarios db)
  /\ keys_ok e_id (equipos db)
  /\ keys_ok m_id (miembros_equipo db)
  /\ keys_ok t_id (torneos db)
  /\ keys_ok i_id (inscripciones db)
  /\ keys_ok p_id (pagos db)
  /\ keys_ok pa_id (partidos db).

(** From [t] to [t']: the sequence value did not go down, and an id of [t']
    is an id of [t] or lies above the sequence value of [t]. *)
Definition ids_only_grow {R} (id_of : R -> Z) (t t' : table R) : Prop :=
  (seq t <= seq t')%Z
  /\ forall x, In x (map id_of (rows t')) ->
               In x (map id_of (rows t)) \/ (seq t < x)%Z.

Definition no_id_reused (db db' : DB) : Prop :=
  ids_only_grow u_id (usuarios db) (usuarios db')
  /\ ids_only_grow e_id (equipos db) (equipos db')
  /\ ids_only_grow m_id (miembros_equipo db) (miembros_equipo db')
  /\ ids_only_grow t_id (torneos db) (torneos db')
  /\ ids_only_grow i_id (inscripciones db) (inscripciones db')
  /\ ids_only_grow p_id (pagos db) (pagos db')
  /\ ids_only_grow pa_id (partidos db) (partidos db').

(** Referential integrity: every foreign key names a stored row. *)
Definition refs_ok (db : DB) : Prop :=
  Forall (fun e => user_exists db (e_id_capitan e)) (rows (equipos db))
  /\ Forall (fun m => team_exists db (m_id_equipo m)
                      /\ user_exists db (m_id_usuario m))
            (rows (miembros_equipo db))
  /\ Forall (fun i => team_exists db (i_id_equipo i)
                      /\ tournament_exists db (i_id_torneo i))
            (rows (inscripciones db))
  /\ Forall (fun p => team_exists db (p_id_equipo p)
                      /\ tournament_exists db (p_id_torneo p))
            (rows (pagos db))
  /\ Forall (fun p => tournament_exists db (pa_id_torneo p)
                      /\ team_exists db (pa_equipo_local p)
                      /\ team_exists db (pa_equipo_visitante p))
            (rows (partidos db)).

(** The [CHECK] constraints on stored values. *)
Definition checks_ok (db : DB) : Prop :=
  Forall (fun m => text_in (m_rol m) rol_values = true)
         (rows (miembros_equipo db))
  /\ Forall (fun t => (0 < t_max_equipos t)%Z
                      /\ text_in (t_estado t) torneo_estado_values = true)
            (rows (torneos db))
  /\ Forall (fun p => (0 <= p_monto_cent p)%Z
                      /\ text_in (p_estado p) pago_estado_values = true)
            (rows (pagos db)).

(** The [UNIQUE] constraints. *)
Definition unique_ok (db : DB) : Prop :=
  NoDup (map u_email (rows (usuarios db)))
  /\ NoDup (map e_nombre (rows (equipos db)))
  /\ NoDup (map (fun m => (m_id_equipo m, m_id_usuario m))
                (rows (miembros_equipo db)))
  /\ NoDup (map (fun i => (i_id_equipo i, i_id_torneo i))
                (rows (inscripciones db))).

(** A table holds a row with id [x]. *)
Definition has_id {R} (id_of : R -> Z) (t : table R) (x : Z) : Prop :=
  exists r, In r (rows t) /\ id_of r = x.

(** *** What changes the database *)

Definition is_get (r : request) : bool :=
  match r with
  | GET_users | GET_users_id _ | GET_teams | GET_teams_id _ | GET_members
  | GET_tournaments | GET_tournaments_id _ | GET_inscriptions | GET_payments
  | GET_matches => true
  | _ => false
  end.

(** A handler that leaves the file untouched whenever it raises. *)
Definition raises_without_trace {A} (h : handler A) : Prop :=
  forall db,
    match fst (get_db h db) with
    | Raises _ => snd (get_db h db) = db
    | Returns _ => True
    end.

Definition member_of (db : DB) (team user : Z) : Prop :=
  exists x, In x (rows (miembros_equipo db))
            /\ m_id_equipo x = team /\ m_id_usuario x = user.

(** Two users, two teams and a tournament in which no team is enrolled. *)
Definition db_tournament : DB :=
  Eval vm_compute in
  snd (serve [(example_clock, POST_tournaments copa)] db_teams).

(** * Properties *)

(** ** The templates, evaluated *)

Lemma get_db_inserting_caught {R A} stmt (select : Z -> DB -> option R)
    (model : R -> A) detail db :
  get_db (inserting_caught stmt select model detail) db =
  match stmt db with
  | Sql.Done db' id =>
      (match select id db' with
       | Some r => Returns (model r)
       | None => Raises TypeError
       end, db')
  | Sql.IntegrityError =>
      (Raises (HTTPException HTTP_400_BAD_REQUEST detail), db)
  end.
Proof.
  unfold get_db, inserting_caught, bind, try_except_IntegrityError, execute,
    commit, query, construct, bad_request, raise, ret; simpl.
  destruct (stmt db) as [db' id|]; simpl; [|reflexivity].
  destruct (select id db'); reflexivity.
Qed.

Lemma get_db_inserting {R A} stmt (select : Z -> DB -> option R)
    (model : R -> A) db :
  get_db (inserting stmt select model) db =
  match stmt db with
  | Sql.Done db' id =>
      (match select id db' with
       | Some r => Returns (model r)
       | None => Raises TypeError
       end, db')
  | Sql.IntegrityError => (Raises sqlite3_IntegrityError, db)
  end.
Proof.
  unfold get_db, inserting, bind, execute, commit, query, construct, raise,
    ret; simpl.
  destruct (stmt db) as [db' id|]; simpl; [|reflexivity].
  destruct (select id db'); reflexivity.
Qed.

Lemma get_db_updating {R A} stmt (select : DB -> option R) (model : R -> A)
    detail db :
  get_db (updating stmt select model detail) db =
  match stmt db with
  | Sql.Done db' n =>
      if Z.eqb n 0
      then (Raises (HTTPException HTTP_404_NOT_FOUND detail), db)
      else (match select db' with
            | Some r => Returns (model r)
            | None => Raises TypeError
            end, db')
  | Sql.IntegrityError => (Raises sqlite3_IntegrityError, db)
  end.
Proof.
  unfold get_db, updating, bind, execute, commit, query, construct, not_found,
    raise, ret; simpl.
  destruct (stmt db) as [db' n|]; simpl; [|reflexivity].
  destruct (Z.eqb n 0); simpl; [reflexivity|].
  destruct (select db'); reflexivity.
Qed.

Lemma get_db_deleting stmt detail db :
  get_db (deleting stmt detail) db =
  match stmt db with
  | Sql.Done db' n =>
      if Z.eqb n 0
      then (Raises (HTTPException HTTP_404_NOT_FOUND detail), db)
      else (Returns tt, db')
  | Sql.IntegrityError => (Raises sqlite3_IntegrityError, db)
  end.
Proof.
  unfold get_db, deleting, bind, execute, commit, not_found, raise, ret; simpl.
  destruct (stmt db) as [db' n|]; simpl; [|reflexivity].
  destruct (Z.eqb n 0); reflexivity.
Qed.

Lemma get_db_fetching {R A} (select : DB -> option R) (model : R -> A)
    detail db :
  get_db (fetching select model detail) db =
  (match select db with
   | Some r => Returns (model r)
   | None => Raises (HTTPException HTTP_404_NOT_FOUND detail)
   end, db).
Proof.
  unfold get_db, fetching, bind, query, not_found, raise, ret; simpl.
  destruct (select db); reflexivity.
Qed.

Lemma get_db_listing {R A} (tbl : DB -> table R) (model : R -> A) db :
  get_db (listing tbl model) db = (Returns (map model (rows (tbl db))), db).
Proof. reflexivity. Qed.

(** Rewriting [get_db h db] for a handler [h] of [main.py] by the lemma of
    its template. *)
Ltac eval_get_db :=
  match goal with
  | |- context [get_db ?h ?db] =>
      first
        [ rewrite (get_db_inserting_caught _ _ _ _ db : get_db h db = _)
        | rewrite (get_db_inserting _ _ _ db : get_db h db = _)
        | rewrite (get_db_updating _ _ _ _ db : get_db h db = _)
        | rewrite (get_db_deleting _ _ db : get_db h db = _)
        | rewrite (get_db_fetching _ _ _ db : get_db h db = _)
        | rewrite (get_db_listing _ _ db : get_db h db = _) ]
  end.

(** ** No write survives an error *)

Lemma inserting_caught_raises_before_commit {R A} stmt
    (select : Z -> DB -> option R) (model : R -> A) detail :
  raises_before_commit (inserting_caught stmt select model detail).
Proof.
  intro db. rewrite get_db_inserting_caught.
  destruct (stmt db) as [db' id|]; simpl; [|reflexivity].
  destruct (select id db'); simpl; exact I.
Qed.

Lemma inserting_raises_before_commit {R A} stmt
    (select : Z -> DB -> option R) (model : R -> A) :
  raises_before_commit (inserting stmt select model).
Proof.
  intro db. rewrite get_db_inserting.
  destruct (stmt db) as [db' id|]; simpl; [|reflexivity].
  destruct (select id db'); simpl; exact I.
Qed.

Lemma updating_raises_before_commit {R A} stmt (select : DB -> option R)
    (model : R -> A) detail :
  raises_before_commit (updating stmt select model detail).
Proof.
  intro db. rewrite get_db_updating.
  destruct (stmt db) as [db' n|]; simpl; [|reflexivity].
  destruct (Z.eqb n 0); simpl; [reflexivity|].
  destruct (select db'); simpl; exact I.
Qed.

Lemma deleting_raises_before_commit stmt detail :
  raises_before_commit (deleting stmt detail).
Proof.
  intro db. rewrite get_db_deleting.
  destruct (stmt db) as [db' n|]; simpl; [|reflexivity].
  destruct (Z.eqb n 0); simpl; [reflexivity|exact I].
Qed.

Lemma fetching_raises_before_commit {R A} (select : DB -> option R)
    (model : R -> A) detail :
  raises_before_commit (fetching select model detail).
Proof.
  intro db. rewrite get_db_fetching.
  destruct (select db); simpl; [exact I|reflexivity].
Qed.

Lemma listing_raises_before_commit {R A} (tbl : DB -> table R)
    (model : R -> A) :
  raises_before_commit (listing tbl model).
Proof. intro db. exact I. Qed.

Lemma route_error_unchanged {A} (valid : bool) success (wrap : A -> content)
    (h : handler A) db :
  raises_before_commit h ->
  success = HTTP_200_OK \/ success = HTTP_201_CREATED
    \/ success = HTTP_204_NO_CONTENT ->
  is_400_or_404 (status_code_of (fst (route valid success wrap h db))) ->
  snd (route valid success wrap h db) = db.
Proof.
  intros Hh Hs. unfold route. destruct valid; [|reflexivity].
  specialize (Hh db). destruct (get_db h db) as [o db']; simpl in *.
  destruct o as [a|[c d| |]]; simpl; unfold is_400_or_404;
    unfold HTTP_200_OK, HTTP_201_CREATED, HTTP_204_NO_CONTENT,
      HTTP_400_BAD_REQUEST, HTTP_404_NOT_FOUND,
      HTTP_500_INTERNAL_SERVER_ERROR in *;
    intros; try assumption; lia.
Qed.

Ltac template_raises_before_commit :=
  first
    [ apply inserting_caught_raises_before_commit
    | apply inserting_raises_before_commit
    | apply updating_raises_before_commit
    | apply deleting_raises_before_commit
    | apply fetching_raises_before_commit
    | apply listing_raises_before_commit ].

(** C10. Whenever a route answers 400 or 404, the database after the request
    is the database before it: the handler raised before it reached
    [commit], and closing the connection dropped what was pending. *)
Theorem error_response_leaves_database_unchanged
    (now : string) (r : request) (db : DB) :
  is_400_or_404 (status_code_of (fst (app now r db))) ->
  snd (app now r db) = db.
Proof.
  destruct r; cbv beta iota delta [app]; apply route_error_unchanged;
    solve [ template_raises_before_commit | auto ].
Qed.

Lemma error_response_leaves_database_unchanged_witness :
  status_code_of (fst (app example_clock (POST_users ana) db_users)) = 400
  /\ status_code_of (fst (app example_clock (DELETE_teams_id 7) db_users)) = 404
  /\ snd (app example_clock (POST_users ana) db_users) = db_users
  /\ snd (app example_clock (DELETE_teams_id 7) db_users) = db_users.
Proof.
  split; [reflexivity|]. split; [reflexivity|].
  split; apply error_response_leaves_database_unchanged.
  - left; reflexivity.
  - right; reflexivity.
Defined.

(** ** Get-by-id *)

Lemma fetchone_Some {R} (id_of : R -> Z) (t : table R) id r :
  fetchone (fun x => Z.eqb (id_of x) id) t = Some r ->
  In r (rows t) /\ id_of r = id.
Proof.
  unfold fetchone. intros H. apply find_some in H.
  destruct H as [Hin Heq]. apply Z.eqb_eq in Heq. auto.
Qed.

Lemma fetchone_None {R} (id_of : R -> Z) (t : table R) id :
  fetchone (fun x => Z.eqb (id_of x) id) t = None ->
  forall r, In r (rows t) -> id_of r <> id.
Proof.
  unfold fetchone. intros H r Hin Heq.
  apply (find_none _ _ H) in Hin. apply Z.eqb_neq in Hin. contradiction.
Qed.

Lemma fetching_answers_get_by_id {R A} (id_of : R -> Z) (tbl : DB -> table R)
    (model : R -> A) (wrap : A -> content) detail id db :
  answers_get_by_id id_of (tbl db) (fun r => wrap (model r)) id db
    (route true HTTP_200_OK wrap
       (fetching (fun d => fetchone (fun x => Z.eqb (id_of x) id) (tbl d))
                 model detail) db).
Proof.
  unfold answers_get_by_id, route. rewrite get_db_fetching.
  destruct (fetchone (fun x => Z.eqb (id_of x) id) (tbl db)) as [r|] eqn:E;
    simpl.
  - apply fetchone_Some in E. destruct E as [Hin Hid].
    split; [reflexivity|]. split.
    + intros _. exists r. auto.
    + unfold HTTP_200_OK, HTTP_404_NOT_FOUND. split; [discriminate|].
      intros H. exfalso. exact (H r Hin Hid).
  - pose proof (fetchone_None _ _ _ E) as Hno.
    split; [reflexivity|]. split.
    + intros [r [Hin Hid]]. exfalso. exact (Hno r Hin Hid).
    + split; [intros _; exact Hno | reflexivity].
Qed.


(** ** Constraint violations: caught on six routes, not on the others *)

Lemma route_valid {A} success (wrap : A -> content) (h : handler A) db :
  route true success wrap h db =
  (respond success wrap (fst (get_db h db)), snd (get_db h db)).
Proof. unfold route. destruct (get_db h db); reflexivity. Qed.




(** ** Fresh rowids and the re-fetch after an insert *)

Lemma max_rowid_upper (ids : list Z) x : In x ids -> (x <= max_rowid ids)%Z.
Proof.
  induction ids as [|y ids IH]; simpl; [contradiction|].
  intros [->|H]; [lia|]. specialize (IH H). lia.
Qed.

Lemma next_rowid_above {R} (id_of : R -> Z) (t : table R) r :
  In r (rows t) -> (id_of r < next_rowid id_of t)%Z.
Proof.
  intros H. unfold next_rowid.
  pose proof (max_rowid_upper (map id_of (rows t)) (id_of r)
                (in_map id_of _ _ H)).
  lia.
Qed.

Lemma find_app_last {R} (hit : R -> bool) (l : list R) x :
  (forall r, In r l -> hit r = false) -> hit x = true ->
  find hit (l ++ [x]) = Some x.
Proof.
  induction l as [|y l IH]; simpl; intros Hl Hx.
  - now rewrite Hx.
  - rewrite (Hl y (or_introl eq_refl)). apply IH; auto.
Qed.

Lemma fetchone_append_row {R} (id_of : R -> Z) (t : table R) (mk : Z -> R) :
  (forall id, id_of (mk id) = id) ->
  fetchone (fun x => Z.eqb (id_of x) (snd (append_row id_of t mk)))
           (fst (append_row id_of t mk))
  = Some (mk (next_rowid id_of t)).
Proof.
  intros Hmk. unfold fetchone, append_row; simpl. apply find_app_last.
  - intros r Hr. apply Z.eqb_neq.
    pose proof (next_rowid_above id_of t r Hr). lia.
  - rewrite Hmk. apply Z.eqb_refl.
Qed.

Ltac insert_done H :=
  match goal with
  | |- inserted ?id_of ?tbl _ _ ?mk ?db _ _ =>
      repeat match type of H with
             | context [match ?o with Some _ => _ | None => _ end] =>
                 destruct o; [|discriminate H]
             | (if ?c then _ else _) = _ => destruct c; [discriminate H|]
             end;
      cbv beta iota zeta delta [append_row] in H; injection H as <- <-;
      unfold inserted;
      split; [reflexivity|]; split; [reflexivity|]; split;
      [ exact (fetchone_append_row id_of (tbl db) mk (fun _ => eq_refl))
      | intros r Hr E; pose proof (next_rowid_above id_of (tbl db) r Hr); lia ]
  end.

Lemma INSERT_INTO_usuarios_done now nombre nickname email pwd_hash db db' id :
  Sql.INSERT_INTO_usuarios now nombre nickname email pwd_hash db
  = Sql.Done db' id ->
  inserted u_id usuarios set_usuarios Sql.SELECT_usuarios_WHERE_id
    (fun id => mk_usuario id nombre nickname email pwd_hash now) db db' id.
Proof. unfold Sql.INSERT_INTO_usuarios. intros H. insert_done H. Qed.

Lemma INSERT_INTO_equipos_done nombre id_capitan db db' id :
  Sql.INSERT_INTO_equipos nombre id_capitan db = Sql.Done db' id ->
  inserted e_id equipos set_equipos Sql.SELECT_equipos_WHERE_id
    (fun id => mk_equipo id nombre id_capitan) db db' id.
Proof. unfold Sql.INSERT_INTO_equipos. intros H. insert_done H. Qed.

Lemma INSERT_INTO_miembros_equipo_done id_equipo id_usuario rol db db' id :
  Sql.INSERT_INTO_miembros_equipo id_equipo id_usuario rol db
  = Sql.Done db' id ->
  inserted m_id miembros_equipo set_miembros_equipo
    Sql.SELECT_miembros_equipo_WHERE_id
    (fun id => mk_miembro id id_equipo id_usuario rol) db db' id.
Proof. unfold Sql.INSERT_INTO_miembros_equipo. intros H. insert_done H. Qed.

Lemma INSERT_INTO_torneos_done nombre descripcion fecha_inicio fecha_fin
    max_equipos estado db db' id :
  Sql.INSERT_INTO_torneos nombre descripcion fecha_inicio fecha_fin max_equipos
    estado db = Sql.Done db' id ->
  exists est,
    estado = Some est
    /\ inserted t_id torneos set_torneos Sql.SELECT_torneos_WHERE_id
         (fun id => mk_torneo id nombre descripcion fecha_inicio fecha_fin
                              max_equipos est) db db' id.
Proof.
  unfold Sql.INSERT_INTO_torneos. intros H.
  destruct estado as [est|]; [|discriminate H].
  exists est. split; [reflexivity|]. insert_done H.
Qed.

Lemma INSERT_INTO_inscripciones_done now id_equipo id_torneo db db' id :
  Sql.INSERT_INTO_inscripciones now id_equipo id_torneo db = Sql.Done db' id ->
  inserted i_id inscripciones set_inscripciones
    Sql.SELECT_inscripciones_WHERE_id
    (fun id => mk_inscripcion id id_equipo id_torneo now) db db' id.
Proof. unfold Sql.INSERT_INTO_inscripciones. intros H. insert_done H. Qed.

Lemma INSERT_INTO_pagos_done now id_equipo id_torneo monto_cent estado
    db db' id :
  Sql.INSERT_INTO_pagos now id_equipo id_torneo monto_cent estado db
  = Sql.Done db' id ->
  exists est,
    estado = Some est
    /\ inserted p_id pagos set_pagos Sql.SELECT_pagos_WHERE_id
         (fun id => mk_pago id id_equipo id_torneo monto_cent est now)
         db db' id.
Proof.
  unfold Sql.INSERT_INTO_pagos. intros H.
  destruct estado as [est|]; [|discriminate H].
  exists est. split; [reflexivity|]. insert_done H.
Qed.

Lemma INSERT_INTO_partidos_done id_torneo equipo_local equipo_visitante fecha
    resultado_local resultado_visitante db db' id :
  Sql.INSERT_INTO_partidos id_torneo equipo_local equipo_visitante fecha
    resultado_local resultado_visitante db = Sql.Done db' id ->
  inserted pa_id partidos set_partidos Sql.SELECT_partidos_WHERE_id
    (fun id => mk_partido id id_torneo equipo_local equipo_visitante fecha
                          resultado_local resultado_visitante) db db' id.
Proof. unfold Sql.INSERT_INTO_partidos. intros H. insert_done H. Qed.

(** ** Create followed by get-by-id *)

Ltac created_body Hsel :=
  rewrite Hsel; cbn [fst snd respond];
  let H := fresh in intros H; injection H as <- <-.

Ltac get_finds Hsel :=
  cbv beta iota delta [app]; rewrite route_valid; eval_get_db;
  cbn [fst snd us_id eq_id to_id Usuario_of_row Equipo_of_row Torneo_of_row
       u_id e_id t_id];
  rewrite Hsel; reflexivity.



(** ** Unique e-mail addresses *)

Lemma has_row_true {R} (hit : R -> bool) (t : table R) :
  has_row hit t = true <-> exists r, In r (rows t) /\ hit r = true.
Proof. unfold has_row. apply existsb_exists. Qed.

Lemma has_row_false {R} (hit : R -> bool) (t : table R) :
  has_row hit t = false <-> forall r, In r (rows t) -> hit r = false.
Proof.
  unfold has_row. split.
  - intros H r Hr. destruct (hit r) eqn:E; [|reflexivity].
    assert (existsb hit (rows t) = true) as C
      by (apply existsb_exists; eauto).
    congruence.
  - intros H. destruct (existsb hit (rows t)) eqn:E; [|reflexivity].
    apply existsb_exists in E. destruct E as [r [Hr Hh]].
    rewrite (H r Hr) in Hh. discriminate.
Qed.



(** ** Deleting: cascade and restrict *)

Lemma In_without {R} (field : R -> Z) v (t : table R) r :
  In r (rows (without field v t)) <-> In r (rows t) /\ field r <> v.
Proof.
  unfold without, retain; simpl. rewrite filter_In.
  rewrite negb_true_iff, Z.eqb_neq. reflexivity.
Qed.

Lemma seq_without {R} (field : R -> Z) v (t : table R) :
  seq (without field v t) = seq t.
Proof. reflexivity. Qed.

Lemma count_rows_has_row {R} (hit : R -> bool) (t : table R) :
  has_row hit t = true -> Z.eqb (count_rows hit t) 0 = false.
Proof.
  unfold has_row, count_rows. intros H. apply Z.eqb_neq.
  induction (rows t) as [|x l IH]; simpl in *; [discriminate|].
  destruct (hit x); simpl in *; [lia|auto].
Qed.

Lemma has_row_id {R} (id_of : R -> Z) (t : table R) id :
  (exists r, In r (rows t) /\ id_of r = id) ->
  has_row (fun r => Z.eqb (id_of r) id) t = true.
Proof.
  intros [r [Hin Hid]]. apply has_row_true. exists r.
  split; [exact Hin|]. apply Z.eqb_eq. exact Hid.
Qed.

(** C3. Deleting a tournament whose id is in the table succeeds (204) and
    leaves the database without that tournament and without the
    enrollments, payments and matches of that tournament; every other row
    of those four tables, and the users, teams and memberships, stay as they
    were. *)
Theorem delete_tournament_cascades (now : string) (tid : Z) (db : DB) :
  (exists t, In t (rows (torneos db)) /\ t_id t = tid) ->
  fst (app now (DELETE_tournaments_id tid) db)
  = JSONResponse HTTP_204_NO_CONTENT no_content
  /\ snd (app now (DELETE_tournaments_id tid) db)
     = mk_DB (usuarios db) (equipos db) (miembros_equipo db)
             (without t_id tid (torneos db))
             (without i_id_torneo tid (inscripciones db))
             (without p_id_torneo tid (pagos db))
             (without pa_id_torneo tid (partidos db)).
Proof.
  intros Hin. apply has_row_id in Hin.
  cbv beta iota delta [app]. rewrite route_valid. eval_get_db.
  unfold Sql.DELETE_FROM_torneos. rewrite Hin. cbn [negb].
  rewrite (count_rows_has_row _ _ Hin). split; reflexivity.
Qed.

Lemma delete_tournament_cascades_witness :
  fst (app example_clock (DELETE_tournaments_id 1) db_match)
  = JSONResponse HTTP_204_NO_CONTENT no_content
  /\ rows (torneos (snd (app example_clock (DELETE_tournaments_id 1) db_match)))
     = []
  /\ rows (inscripciones
             (snd (app example_clock (DELETE_tournaments_id 1) db_match))) = []
  /\ rows (pagos (snd (app example_clock (DELETE_tournaments_id 1) db_match)))
     = []
  /\ rows (partidos (snd (app example_clock (DELETE_tournaments_id 1) db_match)))
     = []
  /\ usuarios (snd (app example_clock (DELETE_tournaments_id 1) db_match))
     = usuarios db_match
  /\ equipos (snd (app example_clock (DELETE_tournaments_id 1) db_match))
     = equipos db_match.
Proof.
  assert (exists t, In t (rows (torneos db_match)) /\ t_id t = 1) as H.
  { exists (mk_torneo 1 "Copa Verano 2024" (Some "Torneo de fútbol 5 amateur.")
                      "2024-07-01T18:00:00Z" "2024-07-31T22:00:00Z" 16
                      "programado").
    split; [left; reflexivity | reflexivity]. }
  destruct (delete_tournament_cascades example_clock 1 db_match H) as [Hf Hs].
  split; [exact Hf|]. rewrite Hs. repeat split.
Defined.

(** C2. For a team in the table: when some match has it as home or away
    team, delete-team fails (the [RESTRICT] violation is not caught: 500)
    and the database, the team row and its matches included, stays as it
    was; when no match has it, delete-team succeeds (204) and leaves the
    database without the team and without its memberships, enrollments and
    payments, everything else as it was. *)
Theorem delete_team_restricted_or_cascades (now : string) (team : Z) (db : DB) :
  (exists e, In e (rows (equipos db)) /\ e_id e = team) ->
  ((exists p, In p (rows (partidos db))
              /\ (pa_equipo_local p = team \/ pa_equipo_visitante p = team)) ->
   fst (app now (DELETE_teams_id team) db) = InternalServerError
   /\ snd (app now (DELETE_teams_id team) db) = db)
  /\ ((forall p, In p (rows (partidos db)) ->
                 pa_equipo_local p <> team /\ pa_equipo_visitante p <> team) ->
      fst (app now (DELETE_teams_id team) db)
      = JSONResponse HTTP_204_NO_CONTENT no_content
      /\ snd (app now (DELETE_teams_id team) db)
         = mk_DB (usuarios db)
                 (without e_id team (equipos db))
                 (without m_id_equipo team (miembros_equipo db))
                 (torneos db)
                 (without i_id_equipo team (inscripciones db))
                 (without p_id_equipo team (pagos db))
                 (partidos db)).
Proof.
  intros Hin. apply has_row_id in Hin.
  cbv beta iota delta [app]. rewrite route_valid. eval_get_db.
  unfold Sql.DELETE_FROM_equipos. rewrite Hin. cbn [negb]. split.
  - intros [p [Hp Hplays]].
    assert (has_row (fun p => Z.eqb (pa_equipo_local p) team
                              || Z.eqb (pa_equipo_visitante p) team)
                    (partidos db) = true) as Hr.
    { apply has_row_true. exists p. split; [exact Hp|].
      apply orb_true_iff. rewrite !Z.eqb_eq. exact Hplays. }
    rewrite Hr. split; reflexivity.
  - intros Hfree.
    assert (has_row (fun p => Z.eqb (pa_equipo_local p) team
                              || Z.eqb (pa_equipo_visitante p) team)
                    (partidos db) = false) as Hr.
    { apply has_row_false. intros p Hp. destruct (Hfree p Hp) as [H1 H2].
      apply orb_false_iff. rewrite !Z.eqb_neq. auto. }
    rewrite Hr. rewrite (count_rows_has_row _ _ Hin). split; reflexivity.
Qed.

Lemma delete_team_restricted_or_cascades_witness :
  (fst (app example_clock (DELETE_teams_id 1) db_match) = InternalServerError
   /\ snd (app example_clock (DELETE_teams_id 1) db_match) = db_match)
  /\ (fst (app example_clock (DELETE_teams_id 1) db_teams)
      = JSONResponse HTTP_204_NO_CONTENT no_content
      /\ snd (app example_clock (DELETE_teams_id 1) db_teams)
         = mk_DB (usuarios db_teams)
                 (mk_table [mk_equipo 2 "Los Retadores" 2] 2)
                 (mk_table [mk_miembro 2 2 1 "jugador"] 2)
                 (torneos db_teams) (inscripciones db_teams) (pagos db_teams)
                 (partidos db_teams)).
Proof.
  split.
  - apply (delete_team_restricted_or_cascades example_clock 1 db_match).
    + exists (mk_equipo 1 "Los Campeones" 1).
      split; [left; reflexivity | reflexivity].
    + exists (mk_partido 1 1 1 2 "2024-07-05T20:00:00Z" None None).
      split; [left; reflexivity | left; reflexivity].
  - apply (delete_team_restricted_or_cascades example_clock 1 db_teams).
    + exists (mk_equipo 1 "Los Campeones" 1).
      split; [left; reflexivity | reflexivity].
    + intros p [].
Defined.

(** ** What a request can leave behind *)

(** The database after a request is the database before it, or the result
    of the request's statement. *)
Lemma app_state (now : string) (r : request) (db : DB) :
  snd (app now r db) = db
  \/ exists n, statement now r db = Some (Sql.Done (snd (app now r db)) n).
Proof.
  destruct r; cbv beta iota delta [app statement];
    match goal with
    | |- context [route ?v _ _ _ _] =>
        lazymatch v with
        | true => idtac
        | _ => destruct v; [|left; reflexivity]
        end
    end;
    rewrite route_valid; eval_get_db;
    try (left; reflexivity);
    try match goal with
        | |- context [match ?s with
                      | Sql.Done _ _ => _
                      | Sql.IntegrityError => _
                      end] =>
            destruct s as [db' n|]; [|left; reflexivity]
        end;
    try match goal with
        | |- context [if ?c then _ else _] =>
            destruct c; [left; reflexivity|]
        end;
    right; eexists; reflexivity.
Qed.

Lemma reachable_invariant (P : DB -> Prop) :
  P initialize_database ->
  (forall now r db db' n,
     statement now r db = Some (Sql.Done db' n) -> P db -> P db') ->
  forall db, reachable db -> P db.
Proof.
  intros Hinit Hstep db Hr. induction Hr as [|now r db Hr IH].
  - exact Hinit.
  - destruct (app_state now r db) as [->|[n Hn]]; [exact IH|].
    exact (Hstep now r db _ n Hn IH).
Qed.

(** Unfolding the statement of a request down to the new database. *)
Ltac statement_done H :=
  cbv beta iota delta [statement] in H;
  try discriminate H;
  apply (f_equal (fun o => match o with
                           | Some s => s
                           | None => Sql.IntegrityError
                           end)) in H;
  cbv beta iota zeta delta
    [Sql.INSERT_INTO_usuarios Sql.UPDATE_usuarios Sql.DELETE_FROM_usuarios
     Sql.INSERT_INTO_equipos Sql.UPDATE_equipos Sql.DELETE_FROM_equipos
     Sql.INSERT_INTO_miembros_equipo Sql.DELETE_FROM_miembros_equipo
     Sql.INSERT_INTO_torneos Sql.UPDATE_torneos Sql.DELETE_FROM_torneos
     Sql.INSERT_INTO_inscripciones Sql.DELETE_FROM_inscripciones
     Sql.INSERT_INTO_pagos Sql.DELETE_FROM_pagos
     Sql.INSERT_INTO_partidos Sql.DELETE_FROM_partidos append_row] in H;
  repeat match type of H with
         | context [match ?o with Some _ => _ | None => _ end] =>
             destruct o; [|discriminate H]
         | (if ?c then _ else _) = _ => destruct c eqn:?
         end;
  try discriminate H;
  injection H as <- <-.

(** ** Matches have two different teams *)

Lemma Forall_filter_keep {R} (P : R -> Prop) (keep : R -> bool) (l : list R) :
  Forall P l -> Forall P (filter keep l).
Proof.
  intros H. apply Forall_forall. intros x Hx. apply filter_In in Hx.
  rewrite Forall_forall in H. apply H. tauto.
Qed.

Lemma home_away_distinct_step now r db db' n :
  statement now r db = Some (Sql.Done db' n) ->
  home_away_distinct db -> home_away_distinct db'.
Proof.
  intros H Hinv. unfold home_away_distinct in *.
  destruct r; statement_done H; cbn [partidos set_usuarios set_equipos
    set_miembros_equipo set_torneos set_inscripciones set_pagos set_partidos
    retain modify rows];
    try exact Hinv; try (apply Forall_filter_keep; exact Hinv).
  apply Forall_app. split; [exact Hinv|].
  constructor; [|constructor]. cbn [pa_equipo_local pa_equipo_visitante].
  repeat match goal with
         | E : (_ || _)%bool = false |- _ =>
             apply orb_false_iff in E; destruct E
         end.
  apply Z.eqb_neq. assumption.
Qed.

Lemma reachable_serve reqs db :
  reachable db -> reachable (snd (serve reqs db)).
Proof.
  revert db. induction reqs as [|[now r] reqs IH]; intros db Hr; simpl.
  - exact Hr.
  - pose proof (reachable_step now r db Hr) as H1.
    destruct (app now r db) as [resp db1]. specialize (IH db1 H1).
    destruct (serve reqs db1). exact IH.
Qed.

Lemma db_users_reachable : reachable db_users.
Proof.
  exact (reachable_serve
           [(example_clock, POST_users ana); (example_clock, POST_users juan)]
           initialize_database reachable_init).
Qed.

Lemma db_teams_reachable : reachable db_teams.
Proof.
  exact (reachable_serve
           [(example_clock, POST_teams (mk_EquipoBase "Los Campeones" 1));
            (example_clock, POST_teams (mk_EquipoBase "Los Retadores" 2));
            (example_clock, POST_members (mk_MiembroBase 1 1 "capitan"));
            (example_clock, POST_members (mk_MiembroBase 2 1 "jugador"))]
           db_users db_users_reachable).
Qed.

Lemma db_match_reachable : reachable db_match.
Proof.
  exact (reachable_serve
           [(example_clock, POST_tournaments copa);
            (example_clock, POST_inscriptions (mk_InscripcionBase 1 1));
            (example_clock, POST_inscriptions (mk_InscripcionBase 2 1));
            (example_clock,
             POST_payments (mk_PagoBase 1 1 5000 (Some "pendiente")));
            (example_clock,
             POST_matches
               (mk_PartidoBase 1 1 2 "2024-07-05T20:00:00Z" None None))]
           db_teams db_teams_reachable).
Qed.



(** ** One captain per team *)

Lemma count_rows_retain_le {R} (hit keep : R -> bool) (t : table R) :
  (count_rows hit (retain keep t) <= count_rows hit t)%Z.
Proof.
  unfold count_rows, retain; simpl.
  induction (rows t) as [|x l IH]; simpl; [lia|].
  destruct (keep x); simpl; destruct (hit x); simpl; lia.
Qed.

Lemma count_rows_append {R} (hit : R -> bool) (t : table R) x s :
  count_rows hit (mk_table (rows t ++ [x]) s)
  = (count_rows hit t + if hit x then 1 else 0)%Z.
Proof.
  unfold count_rows; simpl. rewrite filter_app, length_app; simpl.
  destruct (hit x); simpl; lia.
Qed.

Lemma count_rows_none {R} (hit : R -> bool) (t : table R) :
  has_row hit t = false -> count_rows hit t = 0%Z.
Proof.
  unfold has_row, count_rows. induction (rows t) as [|x l IH]; simpl.
  - reflexivity.
  - intros H. apply orb_false_iff in H. destruct H as [-> H]. auto.
Qed.

Lemma one_captain_per_team_step now r db db' n :
  statement now r db = Some (Sql.Done db' n) ->
  one_captain_per_team db -> one_captain_per_team db'.
Proof.
  intros H Hinv team. specialize (Hinv team).
  destruct r; statement_done H; cbn [miembros_equipo set_usuarios set_equipos
    set_miembros_equipo set_torneos set_inscripciones set_pagos set_partidos];
    try exact Hinv;
    try (etransitivity; [apply count_rows_retain_le|]; exact Hinv);
    try (etransitivity; [apply count_rows_retain_le|];
         etransitivity; [apply count_rows_retain_le|]; exact Hinv).
  rewrite count_rows_append.
  unfold is_captain_of at 2. cbn [m_id_equipo m_rol].
  destruct (Z.eqb (mb_id_equipo m) team) eqn:Et; cbn [andb]; [|lia].
  destruct (String.eqb (mb_rol m) "capitan") eqn:Er; [|lia].
  apply Z.eqb_eq in Et. subst team.
  repeat match goal with
         | E : (_ || _)%bool = false |- _ =>
             apply orb_false_iff in E; destruct E
         end.
  match goal with
  | E : (true && has_row _ _)%bool = false |- _ =>
      cbn [andb] in E; apply count_rows_none in E;
      unfold is_captain_of, count_rows in *; cbn [rows] in *; rewrite E
  end.
  lia.
Qed.




(** ** The stored password hash reaches no response *)

Lemma has_row_tmap {R} (hit : R -> bool) (f : R -> R) (t : table R) :
  has_row hit (tmap f t) = has_row (fun r => hit (f r)) t.
Proof.
  unfold has_row, tmap; simpl.
  induction (rows t) as [|x l IH]; simpl; [reflexivity|]. now rewrite IH.
Qed.

Lemma count_rows_tmap {R} (hit : R -> bool) (f : R -> R) (t : table R) :
  count_rows hit (tmap f t) = count_rows (fun r => hit (f r)) t.
Proof.
  unfold count_rows, tmap; simpl. f_equal.
  induction (rows t) as [|x l IH]; simpl; [reflexivity|].
  destruct (hit (f x)); simpl; now rewrite IH.
Qed.

Lemma retain_tmap {R} (keep : R -> bool) (f : R -> R) (t : table R) :
  retain keep (tmap f t) = tmap f (retain (fun r => keep (f r)) t).
Proof.
  unfold retain, tmap; simpl. f_equal.
  induction (rows t) as [|x l IH]; simpl; [reflexivity|].
  destruct (keep (f x)); simpl; now rewrite IH.
Qed.

Lemma fetchone_tmap {R} (hit : R -> bool) (f : R -> R) (t : table R) :
  fetchone hit (tmap f t) = option_map f (fetchone (fun r => hit (f r)) t).
Proof.
  unfold fetchone, tmap; simpl.
  induction (rows t) as [|x l IH]; simpl; [reflexivity|].
  destruct (hit (f x)); [reflexivity|exact IH].
Qed.

Lemma tmap_tmap {R} (f g : R -> R) (t : table R) :
  tmap f (tmap g t) = tmap (fun r => f (g r)) t.
Proof. unfold tmap; simpl. now rewrite map_map. Qed.

Lemma next_rowid_redact (t : table usuarios_row) :
  next_rowid u_id (tmap redact t) = next_rowid u_id t.
Proof. unfold next_rowid, tmap; simpl. now rewrite map_map. Qed.

Lemma public_view_idem db : public_view (public_view db) = public_view db.
Proof.
  unfold public_view, set_usuarios; simpl. now rewrite tmap_tmap.
Qed.

(** Two statements that both give, up to hashes, what a third gives on the
    public view cannot tell two databases with the same view apart. *)
Lemma hash_blind_by_view (stmt0 stmt1 stmt2 : DB -> Sql.result Z) :
  (forall db, view_result (stmt1 db) = view_result (stmt0 (public_view db))) ->
  (forall db, view_result (stmt2 db) = view_result (stmt0 (public_view db))) ->
  hash_blind stmt1 stmt2.
Proof.
  intros H1 H2 db1 db2 Hdb. unfold same_but_pwd_hash in Hdb.
  now rewrite H1, H2, Hdb.
Qed.

Lemma hash_blind_same (stmt : DB -> Sql.result Z) :
  (forall db, view_result (stmt db) = view_result (stmt (public_view db))) ->
  hash_blind stmt stmt.
Proof. intros H. exact (hash_blind_by_view stmt stmt stmt H H). Qed.

Lemma hash_blind_read_by_view {R A} (select : DB -> option R) (model : R -> A) :
  (forall db, option_map model (select db)
              = option_map model (select (public_view db))) ->
  hash_blind_read select model.
Proof.
  intros H db1 db2 Hdb. unfold same_but_pwd_hash in Hdb.
  now rewrite (H db1), (H db2), Hdb.
Qed.

Lemma view_result_Done {A} db1 db2 (a1 a2 : A) :
  view_result (Sql.Done db1 a1) = view_result (Sql.Done db2 a2) ->
  same_but_pwd_hash db1 db2 /\ a1 = a2.
Proof.
  unfold same_but_pwd_hash. cbn [view_result]. intros H.
  split; congruence.
Qed.

Ltac blind_result H s1 s2 :=
  destruct s1 as [a1 n1|], s2 as [a2 n2|];
  try discriminate H;
  [ apply view_result_Done in H; destruct H as [H <-] | ].

Ltac blind_row H r1 r2 :=
  destruct r1, r2; cbn [option_map] in H; try discriminate H;
  [ injection H as -> | ].

Lemma inserting_caught_hash_blind {R A} stmt1 stmt2
    (select : Z -> DB -> option R) (model : R -> A) detail :
  hash_blind stmt1 stmt2 ->
  (forall id, hash_blind_read (select id) model) ->
  hash_blind_handler (inserting_caught stmt1 select model detail)
                     (inserting_caught stmt2 select model detail).
Proof.
  intros Hs Hr db1 db2 Hdb. rewrite !get_db_inserting_caught.
  specialize (Hs db1 db2 Hdb). blind_result Hs (stmt1 db1) (stmt2 db2).
  - specialize (Hr n1 a1 a2 Hs).
    blind_row Hr (select n1 a1) (select n1 a2); split; auto.
  - split; auto.
Qed.

Lemma inserting_hash_blind {R A} stmt1 stmt2
    (select : Z -> DB -> option R) (model : R -> A) :
  hash_blind stmt1 stmt2 ->
  (forall id, hash_blind_read (select id) model) ->
  hash_blind_handler (inserting stmt1 select model)
                     (inserting stmt2 select model).
Proof.
  intros Hs Hr db1 db2 Hdb. rewrite !get_db_inserting.
  specialize (Hs db1 db2 Hdb). blind_result Hs (stmt1 db1) (stmt2 db2).
  - specialize (Hr n1 a1 a2 Hs).
    blind_row Hr (select n1 a1) (select n1 a2); split; auto.
  - split; auto.
Qed.

Lemma updating_hash_blind {R A} stmt1 stmt2 (select : DB -> option R)
    (model : R -> A) detail :
  hash_blind stmt1 stmt2 ->
  hash_blind_read select model ->
  hash_blind_handler (updating stmt1 select model detail)
                     (updating stmt2 select model detail).
Proof.
  intros Hs Hr db1 db2 Hdb. rewrite !get_db_updating.
  specialize (Hs db1 db2 Hdb). blind_result Hs (stmt1 db1) (stmt2 db2).
  - destruct (Z.eqb n1 0); [split; auto|].
    specialize (Hr a1 a2 Hs).
    blind_row Hr (select a1) (select a2); split; auto.
  - split; auto.
Qed.

Lemma deleting_hash_blind stmt1 stmt2 detail :
  hash_blind stmt1 stmt2 ->
  hash_blind_handler (deleting stmt1 detail) (deleting stmt2 detail).
Proof.
  intros Hs db1 db2 Hdb. rewrite !get_db_deleting.
  specialize (Hs db1 db2 Hdb). blind_result Hs (stmt1 db1) (stmt2 db2).
  - destruct (Z.eqb n1 0); split; auto.
  - split; auto.
Qed.

Lemma fetching_hash_blind {R A} (select : DB -> option R) (model : R -> A)
    detail :
  hash_blind_read select model ->
  hash_blind_handler (fetching select model detail)
                     (fetching select model detail).
Proof.
  intros Hr db1 db2 Hdb. rewrite !get_db_fetching.
  specialize (Hr db1 db2 Hdb).
  blind_row Hr (select db1) (select db2); split; auto.
Qed.

Lemma listing_hash_blind {R A} (tbl : DB -> table R) (model : R -> A) :
  (forall db, map model (rows (tbl db))
              = map model (rows (tbl (public_view db)))) ->
  hash_blind_handler (listing tbl model) (listing tbl model).
Proof.
  intros H db1 db2 Hdb. rewrite !get_db_listing. cbn [fst snd].
  split; [|exact Hdb]. unfold same_but_pwd_hash in Hdb.
  now rewrite (H db1), (H db2), Hdb.
Qed.

Lemma route_hash_blind {A} valid success (wrap : A -> content)
    (h1 h2 : handler A) db1 db2 :
  hash_blind_handler h1 h2 ->
  same_but_pwd_hash db1 db2 ->
  fst (route valid success wrap h1 db1) = fst (route valid success wrap h2 db2)
  /\ same_but_pwd_hash (snd (route valid success wrap h1 db1))
                       (snd (route valid success wrap h2 db2)).
Proof.
  intros Hh Hdb. destruct valid; [|split; [reflexivity|exact Hdb]].
  rewrite !route_valid. cbn [fst snd].
  destruct (Hh db1 db2 Hdb) as [-> H2]. split; [reflexivity|exact H2].
Qed.

Lemma tmap_redact_idem (t : table usuarios_row) :
  tmap redact (tmap redact t) = tmap redact t.
Proof. now rewrite tmap_tmap. Qed.

(** The view of a database whose [usuarios] table is kept. *)
Lemma public_view_keeps db e m t i p pa :
  public_view (mk_DB (tmap redact (usuarios db)) e m t i p pa)
  = public_view (mk_DB (usuarios db) e m t i p pa).
Proof.
  unfold public_view, set_usuarios; cbn [usuarios equipos miembros_equipo
    torneos inscripciones pagos partidos].
  now rewrite tmap_redact_idem.
Qed.

(** For a statement that does not write [usuarios]: the same tests pass on
    the database and on its view, and the results have the same view. *)
Ltac view_stmt :=
  intros db;
  cbv beta iota zeta delta
    [Sql.INSERT_INTO_equipos Sql.UPDATE_equipos Sql.DELETE_FROM_equipos
     Sql.INSERT_INTO_miembros_equipo Sql.DELETE_FROM_miembros_equipo
     Sql.INSERT_INTO_torneos Sql.UPDATE_torneos Sql.DELETE_FROM_torneos
     Sql.INSERT_INTO_inscripciones Sql.DELETE_FROM_inscripciones
     Sql.INSERT_INTO_pagos Sql.DELETE_FROM_pagos
     Sql.INSERT_INTO_partidos Sql.DELETE_FROM_partidos append_row];
  cbn [public_view set_usuarios set_equipos set_miembros_equipo set_torneos
       set_inscripciones set_pagos set_partidos usuarios equipos
       miembros_equipo torneos inscripciones pagos partidos];
  rewrite ?has_row_tmap; cbn [redact u_id];
  repeat match goal with
         | |- context [match ?o with Some _ => _ | None => _ end] =>
             destruct o
         | |- context [if ?c then _ else _] => destruct c
         end;
  cbn [view_result]; try reflexivity;
  f_equal; symmetry; apply public_view_keeps.

Lemma INSERT_INTO_equipos_hash_blind nombre id_capitan :
  hash_blind (Sql.INSERT_INTO_equipos nombre id_capitan)
             (Sql.INSERT_INTO_equipos nombre id_capitan).
Proof. apply hash_blind_same. view_stmt. Qed.

Lemma UPDATE_equipos_hash_blind nombre id_capitan team_id :
  hash_blind (Sql.UPDATE_equipos nombre id_capitan team_id)
             (Sql.UPDATE_equipos nombre id_capitan team_id).
Proof. apply hash_blind_same. view_stmt. Qed.

Lemma DELETE_FROM_equipos_hash_blind team_id :
  hash_blind (Sql.DELETE_FROM_equipos team_id)
             (Sql.DELETE_FROM_equipos team_id).
Proof. apply hash_blind_same. view_stmt. Qed.

Lemma INSERT_INTO_miembros_equipo_hash_blind id_equipo id_usuario rol :
  hash_blind (Sql.INSERT_INTO_miembros_equipo id_equipo id_usuario rol)
             (Sql.INSERT_INTO_miembros_equipo id_equipo id_usuario rol).
Proof. apply hash_blind_same. view_stmt. Qed.

Lemma DELETE_FROM_miembros_equipo_hash_blind member_id :
  hash_blind (Sql.DELETE_FROM_miembros_equipo member_id)
             (Sql.DELETE_FROM_miembros_equipo member_id).
Proof. apply hash_blind_same. view_stmt. Qed.

Lemma INSERT_INTO_torneos_hash_blind nombre descripcion fecha_inicio fecha_fin
    max_equipos estado :
  hash_blind (Sql.INSERT_INTO_torneos nombre descripcion fecha_inicio fecha_fin
                max_equipos estado)
             (Sql.INSERT_INTO_torneos nombre descripcion fecha_inicio fecha_fin
                max_equipos estado).
Proof. apply hash_blind_same. view_stmt. Qed.

Lemma UPDATE_torneos_hash_blind nombre descripcion fecha_inicio fecha_fin
    max_equipos estado tournament_id :
  hash_blind (Sql.UPDATE_torneos nombre descripcion fecha_inicio fecha_fin
                max_equipos estado tournament_id)
             (Sql.UPDATE_torneos nombre descripcion fecha_inicio fecha_fin
                max_equipos estado tournament_id).
Proof. apply hash_blind_same. view_stmt. Qed.

Lemma DELETE_FROM_torneos_hash_blind tournament_id :
  hash_blind (Sql.DELETE_FROM_torneos tournament_id)
             (Sql.DELETE_FROM_torneos tournament_id).
Proof. apply hash_blind_same. view_stmt. Qed.

Lemma INSERT_INTO_inscripciones_hash_blind now id_equipo id_torneo :
  hash_blind (Sql.INSERT_INTO_inscripciones now id_equipo id_torneo)
             (Sql.INSERT_INTO_inscripciones now id_equipo id_torneo).
Proof. apply hash_blind_same. view_stmt. Qed.

Lemma DELETE_FROM_inscripciones_hash_blind insc_id :
  hash_blind (Sql.DELETE_FROM_inscripciones insc_id)
             (Sql.DELETE_FROM_inscripciones insc_id).
Proof. apply hash_blind_same. view_stmt. Qed.

Lemma INSERT_INTO_pagos_hash_blind now id_equipo id_torneo monto_cent estado :
  hash_blind (Sql.INSERT_INTO_pagos now id_equipo id_torneo monto_cent estado)
             (Sql.INSERT_INTO_pagos now id_equipo id_torneo monto_cent estado).
Proof. apply hash_blind_same. view_stmt. Qed.

Lemma DELETE_FROM_pagos_hash_blind payment_id :
  hash_blind (Sql.DELETE_FROM_pagos payment_id)
             (Sql.DELETE_FROM_pagos payment_id).
Proof. apply hash_blind_same. view_stmt. Qed.

Lemma INSERT_INTO_partidos_hash_blind id_torneo equipo_local equipo_visitante
    fecha resultado_local resultado_visitante :
  hash_blind (Sql.INSERT_INTO_partidos id_torneo equipo_local equipo_visitante
                fecha resultado_local resultado_visitante)
             (Sql.INSERT_INTO_partidos id_torneo equipo_local equipo_visitante
                fecha resultado_local resultado_visitante).
Proof. apply hash_blind_same. view_stmt. Qed.

Lemma DELETE_FROM_partidos_hash_blind match_id :
  hash_blind (Sql.DELETE_FROM_partidos match_id)
             (Sql.DELETE_FROM_partidos match_id).
Proof. apply hash_blind_same. view_stmt. Qed.

Lemma INSERT_INTO_usuarios_view now nombre nickname email pwd_hash db :
  view_result (Sql.INSERT_INTO_usuarios now nombre nickname email pwd_hash db)
  = view_result (Sql.INSERT_INTO_usuarios now nombre nickname email ""
                   (public_view db)).
Proof.
  unfold Sql.INSERT_INTO_usuarios.
  cbn [public_view set_usuarios usuarios].
  rewrite has_row_tmap; cbn [redact u_email].
  destruct (has_row (fun r => String.eqb (u_email r) email) (usuarios db));
    [reflexivity|].
  cbv beta iota zeta delta [append_row]. rewrite next_rowid_redact.
  cbn [view_result]. f_equal.
  unfold public_view, set_usuarios, tmap;
    cbn [usuarios equipos miembros_equipo torneos inscripciones pagos partidos
         rows seq].
  rewrite !map_app, map_map. reflexivity.
Qed.

Lemma INSERT_INTO_usuarios_hash_blind now nombre nickname email pwd1 pwd2 :
  hash_blind (Sql.INSERT_INTO_usuarios now nombre nickname email pwd1)
             (Sql.INSERT_INTO_usuarios now nombre nickname email pwd2).
Proof.
  apply (hash_blind_by_view
           (Sql.INSERT_INTO_usuarios now nombre nickname email ""));
    intros db; apply INSERT_INTO_usuarios_view.
Qed.

Lemma UPDATE_usuarios_hash_blind nombre nickname email user_id :
  hash_blind (Sql.UPDATE_usuarios nombre nickname email user_id)
             (Sql.UPDATE_usuarios nombre nickname email user_id).
Proof.
  apply hash_blind_same. intros db. unfold Sql.UPDATE_usuarios.
  cbn [public_view set_usuarios usuarios].
  rewrite !has_row_tmap, count_rows_tmap; cbn [redact u_id u_email].
  destruct (negb (has_row (fun r => Z.eqb (u_id r) user_id) (usuarios db)));
    [cbn [view_result]; now rewrite public_view_idem|].
  destruct (has_row (fun r => negb (Z.eqb (u_id r) user_id)
                              && String.eqb (u_email r) email) (usuarios db));
    [reflexivity|].
  cbn [view_result]. f_equal.
  unfold public_view, set_usuarios, tmap, modify;
    cbn [usuarios equipos miembros_equipo torneos inscripciones pagos partidos
         rows seq].
  f_equal. f_equal. rewrite !map_map. apply map_ext. intros r.
  cbn [redact u_id]. destruct (Z.eqb (u_id r) user_id); reflexivity.
Qed.

Lemma DELETE_FROM_usuarios_hash_blind user_id :
  hash_blind (Sql.DELETE_FROM_usuarios user_id)
             (Sql.DELETE_FROM_usuarios user_id).
Proof.
  apply hash_blind_same. intros db. unfold Sql.DELETE_FROM_usuarios.
  cbn [public_view set_usuarios usuarios equipos miembros_equipo].
  rewrite !has_row_tmap, count_rows_tmap, retain_tmap; cbn [redact u_id].
  destruct (negb (has_row (fun r => Z.eqb (u_id r) user_id) (usuarios db)));
    [cbn [view_result]; now rewrite public_view_idem|].
  destruct (has_row (fun e => Z.eqb (e_id_capitan e) user_id) (equipos db));
    [reflexivity|].
  cbn [view_result]. f_equal.
  unfold public_view, set_usuarios, set_miembros_equipo;
    cbn [usuarios equipos miembros_equipo torneos inscripciones pagos partidos].
  now rewrite tmap_redact_idem.
Qed.

(** The reads: a user row reaches a response only through [Usuario], which
    has no field for the hash; the other tables hold no hash. *)
Lemma Usuario_of_row_redact r : Usuario_of_row (redact r) = Usuario_of_row r.
Proof. reflexivity. Qed.

Lemma SELECT_usuarios_hash_blind id :
  hash_blind_read (Sql.SELECT_usuarios_WHERE_id id) Usuario_of_row.
Proof.
  apply hash_blind_read_by_view. intros db.
  unfold Sql.SELECT_usuarios_WHERE_id. cbn [public_view set_usuarios usuarios].
  rewrite fetchone_tmap; cbn [redact u_id].
  destruct (fetchone (fun r => Z.eqb (u_id r) id) (usuarios db)); reflexivity.
Qed.

Lemma list_usuarios_hash_blind db :
  map Usuario_of_row (rows (usuarios db))
  = map Usuario_of_row (rows (usuarios (public_view db))).
Proof.
  cbn [public_view set_usuarios usuarios tmap rows]. now rewrite map_map.
Qed.

Ltac blind_read :=
  first [ apply SELECT_usuarios_hash_blind
        | apply hash_blind_read_by_view; intros ?; reflexivity ].

Ltac blind_stmt :=
  first
    [ apply INSERT_INTO_usuarios_hash_blind
    | apply UPDATE_usuarios_hash_blind
    | apply DELETE_FROM_usuarios_hash_blind
    | apply INSERT_INTO_equipos_hash_blind
    | apply UPDATE_equipos_hash_blind
    | apply DELETE_FROM_equipos_hash_blind
    | apply INSERT_INTO_miembros_equipo_hash_blind
    | apply DELETE_FROM_miembros_equipo_hash_blind
    | apply INSERT_INTO_torneos_hash_blind
    | apply UPDATE_torneos_hash_blind
    | apply DELETE_FROM_torneos_hash_blind
    | apply INSERT_INTO_inscripciones_hash_blind
    | apply DELETE_FROM_inscripciones_hash_blind
    | apply INSERT_INTO_pagos_hash_blind
    | apply DELETE_FROM_pagos_hash_blind
    | apply INSERT_INTO_partidos_hash_blind
    | apply DELETE_FROM_partidos_hash_blind ].

Ltac blind_handler :=
  first
    [ apply inserting_caught_hash_blind; [blind_stmt | intros ?; blind_read]
    | apply inserting_hash_blind; [blind_stmt | intros ?; blind_read]
    | apply updating_hash_blind; [blind_stmt | blind_read]
    | apply deleting_hash_blind; blind_stmt
    | apply fetching_hash_blind; blind_read
    | apply listing_hash_blind;
      first [ exact list_usuarios_hash_blind | intros ?; reflexivity ] ].

(** One request, two databases with the same public view, two payloads
    that differ at most in the hash: the same response, and again the same
    public view. *)
Lemma app_hash_blind now r1 r2 db1 db2 :
  same_request_but_pwd_hash r1 r2 ->
  same_but_pwd_hash db1 db2 ->
  fst (app now r1 db1) = fst (app now r2 db2)
  /\ same_but_pwd_hash (snd (app now r1 db1)) (snd (app now r2 db2)).
Proof.
  intros Hr Hdb.
  destruct r1; cbn [same_request_but_pwd_hash] in Hr;
    try (subst r2; cbv beta iota delta [app];
         apply route_hash_blind; [blind_handler | exact Hdb]).
  destruct r2; try discriminate Hr.
  destruct u as [n1 k1 e1 p1], u0 as [n2 k2 e2 p2].
  cbn [uc_nombre uc_nickname uc_email] in Hr.
  destruct Hr as (<- & <- & <- & Hv).
  cbv beta iota delta [app]. rewrite Hv.
  apply route_hash_blind; [|exact Hdb].
  apply (inserting_caught_hash_blind
           (Sql.INSERT_INTO_usuarios now n1 k1 e1 p1)
           (Sql.INSERT_INTO_usuarios now n1 k1 e1 p2)
           Sql.SELECT_usuarios_WHERE_id Usuario_of_row).
  - apply INSERT_INTO_usuarios_hash_blind.
  - intros id. apply SELECT_usuarios_hash_blind.
Qed.

(** C9. No response discloses a stored password hash: two runs of the
    application that receive the same requests, except for the hash inside
    create-user payloads, from databases that differ at most in stored
    hashes, give the same responses on every route.  (The response class
    [Usuario] of create-user, list-users, get-user and update-user has no
    [pwd_hash] field.) *)
Theorem responses_never_depend_on_pwd_hash
    (calls1 calls2 : list (string * request)) (db1 db2 : DB) :
  same_but_pwd_hash db1 db2 ->
  Forall2 same_calls_but_pwd_hash calls1 calls2 ->
  fst (serve calls1 db1) = fst (serve calls2 db2).
Proof.
  intros Hdb Hcalls. revert db1 db2 Hdb.
  induction Hcalls as [|[now1 r1] [now2 r2] l1 l2 [Hnow Hr] _ IH];
    intros db1 db2 Hdb; cbn [serve]; [reflexivity|].
  cbn [fst snd] in Hnow, Hr. subst now2.
  destruct (app_hash_blind now1 r1 r2 db1 db2 Hr Hdb) as [Hresp Hdb'].
  destruct (app now1 r1 db1) as [resp1 db1'],
           (app now1 r2 db2) as [resp2 db2'].
  cbn [fst snd] in Hresp, Hdb'. subst resp2.
  specialize (IH db1' db2' Hdb').
  destruct (serve l1 db1') as [resps1 ?], (serve l2 db2') as [resps2 ?].
  cbn [fst] in *. now rewrite IH.
Qed.

Lemma responses_never_depend_on_pwd_hash_witness :
  fst (serve (user_calls example_hash) initialize_database)
  = fst (serve (user_calls other_hash) initialize_database).
Proof.
  apply responses_never_depend_on_pwd_hash.
  - reflexivity.
  - repeat constructor.
Defined.

(** ** The example run, evaluated *)

Example user_calls_responses :
  fst (serve (user_calls example_hash) initialize_database)
  = [JSONResponse 201
       (a_Usuario (mk_Usuario 1 "Ana García" "agarcia" "ana.garcia@example.com"
                              example_clock));
     JSONResponse 200
       (List_Usuario
          [mk_Usuario 1 "Ana García" "agarcia" "ana.garcia@example.com"
                      example_clock]);
     JSONResponse 200
       (a_Usuario (mk_Usuario 1 "Ana García" "agarcia" "ana.garcia@example.com"
                              example_clock));
     JSONResponse 200
       (a_Usuario (mk_Usuario 1 "Ana G." "agarcia" "ana.garcia@example.com"
                              example_clock))].
Proof. vm_compute. reflexivity. Qed.

Example get_missing_team :
  app example_clock (GET_teams_id 7) db_match
  = (ErrorDetail 404 "Equipo no encontrado", db_match).
Proof. vm_compute. reflexivity. Qed.

Example delete_captain_user_is_500 :
  app example_clock (DELETE_users_id 1) db_teams
  = (InternalServerError, db_teams).
Proof. vm_compute. reflexivity. Qed.

Example create_tournament_null_estado_is_500 :
  app example_clock
      (POST_tournaments
         (mk_TorneoBase "Copa" None "2024-07-01T18:00:00Z"
                        "2024-07-31T22:00:00Z" 16 None))
      db_users
  = (InternalServerError, db_users).
Proof. vm_compute. reflexivity. Qed.

(** * Further properties of the handlers *)

(** ** Which status code, and why *)

Lemma fetchone_modify {R} (hit : R -> bool) (f : R -> R) (t : table R) :
  (forall r, hit (f r) = hit r) ->
  fetchone hit (modify hit f t) = option_map f (fetchone hit t).
Proof.
  intros Hf. unfold fetchone, modify; simpl.
  induction (rows t) as [|x l IH]; simpl; [reflexivity|].
  destruct (hit x) eqn:E.
  - now rewrite Hf, E.
  - now rewrite E.
Qed.

Lemma has_row_fetchone {R} (hit : R -> bool) (t : table R) :
  has_row hit t = true -> fetchone hit t <> None.
Proof.
  unfold has_row, fetchone. intros H Hn.
  apply existsb_exists in H. destruct H as [r [Hin Hr]].
  rewrite (find_none _ _ Hn r Hin) in Hr. discriminate.
Qed.

Ltac update_refetch H :=
  repeat match type of H with
         | context [match ?o with Some _ => _ | None => _ end] =>
             destruct o; [|discriminate H]
         | (if ?c then _ else _) = _ => destruct c eqn:?
         end;
  try discriminate H; injection H as <- <-;
  [ intros Hn; discriminate Hn | intros _ ].

Lemma UPDATE_usuarios_refetch nombre nickname email user_id :
  refetch_after_update (Sql.UPDATE_usuarios nombre nickname email user_id)
                       (Sql.SELECT_usuarios_WHERE_id user_id).
Proof.
  intros db db' n H. unfold Sql.UPDATE_usuarios in H. update_refetch H.
  unfold Sql.SELECT_usuarios_WHERE_id; cbn [usuarios set_usuarios].
  rewrite fetchone_modify by reflexivity.
  apply negb_false_iff in Heqb. apply has_row_fetchone in Heqb.
  destruct (fetchone (fun r => Z.eqb (u_id r) user_id) (usuarios db));
    [discriminate|contradiction].
Qed.

Lemma UPDATE_equipos_refetch nombre id_capitan team_id :
  refetch_after_update (Sql.UPDATE_equipos nombre id_capitan team_id)
                       (Sql.SELECT_equipos_WHERE_id team_id).
Proof.
  intros db db' n H. unfold Sql.UPDATE_equipos in H. update_refetch H.
  unfold Sql.SELECT_equipos_WHERE_id; cbn [equipos set_equipos].
  rewrite fetchone_modify by reflexivity.
  apply negb_false_iff in Heqb. apply has_row_fetchone in Heqb.
  destruct (fetchone (fun r => Z.eqb (e_id r) team_id) (equipos db));
    [discriminate|contradiction].
Qed.

Lemma UPDATE_torneos_refetch nombre descripcion fecha_inicio fecha_fin
    max_equipos estado tournament_id :
  refetch_after_update
    (Sql.UPDATE_torneos nombre descripcion fecha_inicio fecha_fin max_equipos
       estado tournament_id)
    (Sql.SELECT_torneos_WHERE_id tournament_id).
Proof.
  intros db db' n H. unfold Sql.UPDATE_torneos in H.
  destruct (negb (has_row (fun t => Z.eqb (t_id t) tournament_id)
                          (torneos db))) eqn:Heqb.
  - injection H as <- <-. intros Hn; discriminate Hn.
  - destruct estado as [est|]; [|discriminate H].
    destruct (negb (0 <? max_equipos)%Z
              || negb (text_in est torneo_estado_values)); [discriminate H|].
    injection H as <- <-. intros _.
    unfold Sql.SELECT_torneos_WHERE_id; cbn [torneos set_torneos].
    rewrite fetchone_modify by reflexivity.
    apply negb_false_iff in Heqb. apply has_row_fetchone in Heqb.
    destruct (fetchone (fun r => Z.eqb (t_id r) tournament_id) (torneos db));
      [discriminate|contradiction].
Qed.

Ltac classify :=
  unfold classified, HTTP_400_BAD_REQUEST, HTTP_404_NOT_FOUND; simpl;
  repeat split; intros;
  repeat match goal with
         | H : exists _, _ |- _ => destruct H
         | H : _ /\ _ |- _ => destruct H
         end;
  try discriminate; try congruence; eauto.

Lemma inserting_caught_classified {R A} stmt (select : Z -> DB -> option R)
    (model : R -> A) detail success (wrap : A -> content) db :
  refetch_after_insert stmt select ->
  classified true (Sql.raises (stmt db))
    (respond success wrap
       (fst (get_db (inserting_caught stmt select model detail) db))).
Proof.
  intros Hre. rewrite get_db_inserting_caught.
  destruct (stmt db) as [db' id|] eqn:E; [|classify].
  specialize (Hre db db' id E).
  destruct (select id db'); [classify|contradiction].
Qed.

Lemma inserting_classified {R A} stmt (select : Z -> DB -> option R)
    (model : R -> A) success (wrap : A -> content) db :
  refetch_after_insert stmt select ->
  classified false (Sql.raises (stmt db))
    (respond success wrap (fst (get_db (inserting stmt select model) db))).
Proof.
  intros Hre. rewrite get_db_inserting.
  destruct (stmt db) as [db' id|] eqn:E; [|classify].
  specialize (Hre db db' id E).
  destruct (select id db'); [classify|contradiction].
Qed.

Lemma updating_classified {R A} stmt (select : DB -> option R)
    (model : R -> A) detail success (wrap : A -> content) db :
  refetch_after_update stmt select ->
  classified false (Sql.raises (stmt db))
    (respond success wrap
       (fst (get_db (updating stmt select model detail) db))).
Proof.
  intros Hre. rewrite get_db_updating.
  destruct (stmt db) as [db' n|] eqn:E; [|classify].
  specialize (Hre db db' n E).
  destruct (Z.eqb n 0); [classify|].
  specialize (Hre eq_refl).
  destruct (select db'); [classify|contradiction].
Qed.

Lemma deleting_classified stmt detail success (wrap : unit -> content) db :
  classified false (Sql.raises (stmt db))
    (respond success wrap (fst (get_db (deleting stmt detail) db))).
Proof.
  rewrite get_db_deleting.
  destruct (stmt db) as [db' n|]; [|classify].
  destruct (Z.eqb n 0); classify.
Qed.

Lemma fetching_classified {R A} (select : DB -> option R) (model : R -> A)
    detail success (wrap : A -> content) catches db :
  classified catches false
    (respond success wrap (fst (get_db (fetching select model detail) db))).
Proof. rewrite get_db_fetching. destruct (select db); classify. Qed.

Lemma listing_classified {R A} (tbl : DB -> table R) (model : R -> A)
    success (wrap : list A -> content) catches db :
  classified catches false
    (respond success wrap (fst (get_db (listing tbl model) db))).
Proof. rewrite get_db_listing. classify. Qed.

Ltac insert_refetch :=
  let H := fresh in
  let Hn := fresh in
  intros ? ? ? H Hn;
  first
    [ apply INSERT_INTO_usuarios_done in H
    | apply INSERT_INTO_equipos_done in H
    | apply INSERT_INTO_miembros_equipo_done in H
    | apply INSERT_INTO_inscripciones_done in H
    | apply INSERT_INTO_partidos_done in H
    | apply INSERT_INTO_torneos_done in H; destruct H as (? & _ & H)
    | apply INSERT_INTO_pagos_done in H; destruct H as (? & _ & H) ];
  destruct H as (_ & _ & H & _); rewrite H in Hn; discriminate Hn.

Ltac template_classified :=
  first
    [ apply inserting_caught_classified; insert_refetch
    | apply inserting_classified; insert_refetch
    | apply updating_classified;
      first [ apply UPDATE_usuarios_refetch | apply UPDATE_equipos_refetch
            | apply UPDATE_torneos_refetch ]
    | apply deleting_classified
    | apply fetching_classified
    | apply listing_classified ].


(** ** Update and delete: 404 exactly for a missing id *)

Lemma count_rows_zero {R} (hit : R -> bool) (t : table R) :
  Z.eqb (count_rows hit t) 0 = negb (has_row hit t).
Proof.
  destruct (has_row hit t) eqn:E.
  - now apply count_rows_has_row.
  - rewrite (count_rows_none _ _ E). reflexivity.
Qed.



(** ** Updates *)

Lemma fetchone_has_row {R} (hit : R -> bool) (t : table R) r :
  fetchone hit t = Some r -> has_row hit t = true.
Proof.
  unfold fetchone, has_row. intros H. apply find_some in H.
  apply existsb_exists. exists r. exact H.
Qed.

Lemma map_modify_fixed {R B} (g : R -> B) (hit : R -> bool) (f : R -> R)
    (t : table R) :
  (forall r, g (f r) = g r) ->
  map g (rows (modify hit f t)) = map g (rows t).
Proof.
  intros Hg. unfold modify; simpl. rewrite map_map. apply map_ext.
  intros r. destruct (hit r); [apply Hg|reflexivity].
Qed.

(** X4. Update-user on a stored id, with an e-mail address no other user has
    (the user's own current address is allowed): 200 with the new name,
    nickname and address under the same id and registration date; only the
    rows of that id change, and of them only those three columns: ids,
    password hashes and registration dates of all users stay as they were,
    and so does every other table.  With an address another user has: the
    bare 500, nothing changed. *)
Theorem update_user_overwrites_profile_only
    (now : string) (id : Z) (u : UsuarioBase) (db : DB) (r0 : usuarios_row) :
  UsuarioBase_valid u = true ->
  Sql.SELECT_usuarios_WHERE_id id db = Some r0 ->
  ((forall r, In r (rows (usuarios db)) -> u_id r <> id ->
              u_email r <> ub_email u) ->
   fst (app now (PUT_users_id id u) db)
   = JSONResponse HTTP_200_OK
       (a_Usuario (mk_Usuario id (ub_nombre u) (ub_nickname u) (ub_email u)
                              (u_fecha_reg r0)))
   /\ snd (app now (PUT_users_id id u) db)
      = set_usuarios db
          (modify (fun r => Z.eqb (u_id r) id)
                  (fun r => mk_usuario (u_id r) (ub_nombre u) (ub_nickname u)
                                       (ub_email u) (u_pwd_hash r)
                                       (u_fecha_reg r))
                  (usuarios db))
   /\ map u_id (rows (usuarios (snd (app now (PUT_users_id id u) db))))
      = map u_id (rows (usuarios db))
   /\ map u_pwd_hash (rows (usuarios (snd (app now (PUT_users_id id u) db))))
      = map u_pwd_hash (rows (usuarios db))
   /\ map u_fecha_reg (rows (usuarios (snd (app now (PUT_users_id id u) db))))
      = map u_fecha_reg (rows (usuarios db)))
  /\ ((exists r, In r (rows (usuarios db)) /\ u_id r <> id
                 /\ u_email r = ub_email u) ->
      fst (app now (PUT_users_id id u) db) = InternalServerError
      /\ snd (app now (PUT_users_id id u) db) = db).
Proof.
  intros Hv Hsel.
  pose proof (fetchone_has_row _ _ _ Hsel) as Hrow.
  pose proof (fetchone_Some u_id _ _ _ Hsel) as [_ Hid].
  cbv beta iota delta [app]. rewrite Hv, route_valid. eval_get_db.
  unfold Sql.UPDATE_usuarios. rewrite Hrow. cbn [negb]. split.
  - intros Hfree.
    assert (has_row (fun r => negb (Z.eqb (u_id r) id)
                              && String.eqb (u_email r) (ub_email u))
                    (usuarios db) = false) as Hdup.
    { apply has_row_false. intros r Hin.
      destruct (Z.eqb (u_id r) id) eqn:E; [reflexivity|].
      apply Z.eqb_neq in E. apply String.eqb_neq. exact (Hfree r Hin E). }
    rewrite Hdup, count_rows_zero, Hrow. cbn [negb].
    unfold Sql.SELECT_usuarios_WHERE_id in *. cbn [usuarios set_usuarios].
    rewrite fetchone_modify by reflexivity. rewrite Hsel.
    cbn [option_map fst snd respond Usuario_of_row u_id u_nombre u_nickname
         u_email u_fecha_reg usuarios set_usuarios].
    rewrite Hid. split; [reflexivity|]. split; [reflexivity|].
    split; [|split]; apply map_modify_fixed; reflexivity.
  - intros [r (Hin & Hne & Hmail)].
    assert (has_row (fun r => negb (Z.eqb (u_id r) id)
                              && String.eqb (u_email r) (ub_email u))
                    (usuarios db) = true) as Hdup.
    { apply has_row_true. exists r. split; [exact Hin|].
      apply Z.eqb_neq in Hne. rewrite Hne. apply String.eqb_eq in Hmail.
      rewrite Hmail. reflexivity. }
    rewrite Hdup. split; reflexivity.
Qed.

Lemma update_user_overwrites_profile_only_witness :
  (fst (app example_clock
            (PUT_users_id 2 (mk_UsuarioBase "Juan P." "juanp"
                                            "juan.perez@example.com"))
            db_users)
   = JSONResponse HTTP_200_OK
       (a_Usuario (mk_Usuario 2 "Juan P." "juanp" "juan.perez@example.com"
                              example_clock))
   /\ map u_pwd_hash
          (rows (usuarios
                   (snd (app example_clock
                             (PUT_users_id 2
                                (mk_UsuarioBase "Juan P." "juanp"
                                                "juan.perez@example.com"))
                             db_users))))
      = [example_hash; example_hash])
  /\ (fst (app example_clock
               (PUT_users_id 2 (mk_UsuarioBase "Juan P." "juanp"
                                               "ana.garcia@example.com"))
               db_users) = InternalServerError
      /\ snd (app example_clock
                  (PUT_users_id 2 (mk_UsuarioBase "Juan P." "juanp"
                                                  "ana.garcia@example.com"))
                  db_users) = db_users).
Proof.
  split.
  - destruct (proj1 (update_user_overwrites_profile_only example_clock 2
                       (mk_UsuarioBase "Juan P." "juanp"
                                       "juan.perez@example.com")
                       db_users
                       (mk_usuario 2 "Juan Pérez" "jperez"
                                   "juan.perez@example.com" example_hash
                                   example_clock)
                       eq_refl eq_refl))
      as (H1 & _ & _ & H4 & _).
    + intros r [<-|[<-|[]]] Hne; cbn in *; [discriminate|contradiction].
    + split; [exact H1 | exact H4].
  - apply (proj2 (update_user_overwrites_profile_only example_clock 2
                    (mk_UsuarioBase "Juan P." "juanp" "ana.garcia@example.com")
                    db_users
                    (mk_usuario 2 "Juan Pérez" "jperez"
                                "juan.perez@example.com" example_hash
                                example_clock)
                    eq_refl eq_refl)).
    exists (mk_usuario 1 "Ana García" "agarcia" "ana.garcia@example.com"
                       example_hash example_clock).
    split; [left; reflexivity|]. split; [discriminate|reflexivity].
Defined.

(** X5. Update-team on a stored id.  With a captain id that is no user's, or a
    name another team has: the bare 500, nothing changed.  Otherwise 200
    with the new name and captain under the same id; only [equipos] changes:
    in particular the memberships, the ['capitan'] row included, are not
    touched by a change of [id_capitan]. *)
Theorem update_team_checks_captain_and_name
    (now : string) (id : Z) (t : EquipoBase) (db : DB) (e0 : equipos_row) :
  EquipoBase_valid t = true ->
  Sql.SELECT_equipos_WHERE_id id db = Some e0 ->
  (((forall u, In u (rows (usuarios db)) -> u_id u <> eb_id_capitan t)
    \/ (exists e, In e (rows (equipos db)) /\ e_id e <> id
                  /\ e_nombre e = eb_nombre t)) ->
   fst (app now (PUT_teams_id id t) db) = InternalServerError
   /\ snd (app now (PUT_teams_id id t) db) = db)
  /\ ((exists u, In u (rows (usuarios db)) /\ u_id u = eb_id_capitan t) ->
      (forall e, In e (rows (equipos db)) -> e_id e <> id ->
                 e_nombre e <> eb_nombre t) ->
      fst (app now (PUT_teams_id id t) db)
      = JSONResponse HTTP_200_OK
          (a_Equipo (mk_Equipo id (eb_nombre t) (eb_id_capitan t)))
      /\ snd (app now (PUT_teams_id id t) db)
         = set_equipos db
             (modify (fun e => Z.eqb (e_id e) id)
                     (fun e => mk_equipo (e_id e) (eb_nombre t)
                                         (eb_id_capitan t))
                     (equipos db))
      /\ miembros_equipo (snd (app now (PUT_teams_id id t) db))
         = miembros_equipo db).
Proof.
  intros Hv Hsel.
  pose proof (fetchone_has_row _ _ _ Hsel) as Hrow.
  pose proof (fetchone_Some e_id _ _ _ Hsel) as [_ Hid].
  cbv beta iota delta [app]. rewrite Hv, route_valid. eval_get_db.
  unfold Sql.UPDATE_equipos. rewrite Hrow. cbn [negb]. split.
  - intros [Hcap|[e (Hin & Hne & Hname)]].
    + assert (has_row (fun u => Z.eqb (u_id u) (eb_id_capitan t)) (usuarios db)
              = false) as Hu.
      { apply has_row_false. intros u Hin. apply Z.eqb_neq.
        exact (Hcap u Hin). }
      rewrite Hu, orb_true_r. split; reflexivity.
    + assert (has_row (fun e => negb (Z.eqb (e_id e) id)
                                && String.eqb (e_nombre e) (eb_nombre t))
                      (equipos db) = true) as Hdup.
      { apply has_row_true. exists e. split; [exact Hin|].
        apply Z.eqb_neq in Hne. rewrite Hne. apply String.eqb_eq in Hname.
        rewrite Hname. reflexivity. }
      rewrite Hdup. split; reflexivity.
  - intros Hcap Hfree.
    assert (has_row (fun e => negb (Z.eqb (e_id e) id)
                              && String.eqb (e_nombre e) (eb_nombre t))
                    (equipos db) = false) as Hdup.
    { apply has_row_false. intros e Hin.
      destruct (Z.eqb (e_id e) id) eqn:E; [reflexivity|].
      apply Z.eqb_neq in E. apply String.eqb_neq. exact (Hfree e Hin E). }
    rewrite Hdup, (has_row_id u_id _ _ Hcap). cbn [negb orb].
    rewrite count_rows_zero, Hrow. cbn [negb].
    unfold Sql.SELECT_equipos_WHERE_id in *. cbn [equipos set_equipos].
    rewrite fetchone_modify by reflexivity. rewrite Hsel.
    cbn [option_map fst snd respond Equipo_of_row e_id e_nombre e_id_capitan].
    rewrite Hid. repeat split.
Qed.

Lemma update_team_checks_captain_and_name_witness :
  (fst (app example_clock (PUT_teams_id 2 (mk_EquipoBase "Los Retadores" 99))
            db_teams) = InternalServerError
   /\ snd (app example_clock (PUT_teams_id 2 (mk_EquipoBase "Los Retadores" 99))
               db_teams) = db_teams)
  /\ (fst (app example_clock (PUT_teams_id 2 (mk_EquipoBase "Los Nuevos" 1))
               db_teams)
      = JSONResponse HTTP_200_OK (a_Equipo (mk_Equipo 2 "Los Nuevos" 1))
      /\ miembros_equipo
           (snd (app example_clock (PUT_teams_id 2 (mk_EquipoBase "Los Nuevos" 1))
                     db_teams))
         = miembros_equipo db_teams).
Proof.
  split.
  - apply (proj1 (update_team_checks_captain_and_name example_clock 2
                    (mk_EquipoBase "Los Retadores" 99) db_teams
                    (mk_equipo 2 "Los Retadores" 2) eq_refl eq_refl)).
    left. intros u [<-|[<-|[]]]; discriminate.
  - destruct (proj2 (update_team_checks_captain_and_name example_clock 2
                       (mk_EquipoBase "Los Nuevos" 1) db_teams
                       (mk_equipo 2 "Los Retadores" 2) eq_refl eq_refl))
      as (H1 & _ & H3).
    + exists (mk_usuario 1 "Ana García" "agarcia" "ana.garcia@example.com"
                         example_hash example_clock).
      split; [left; reflexivity | reflexivity].
    + intros e [<-|[<-|[]]] Hne; cbn in *; [discriminate|contradiction].
    + split; [exact H1 | exact H3].
Defined.



(** ** Creating teams, enrollments, payments and tournaments *)

Lemma has_row_iff {R} (hit : R -> bool) (t : table R) (P : R -> Prop) :
  (forall r, hit r = true <-> P r) ->
  (has_row hit t = true <-> exists r, In r (rows t) /\ P r).
Proof.
  intros H. rewrite has_row_true. split; intros [r [Hin Hr]]; exists r;
    (split; [exact Hin|]); apply H; exact Hr.
Qed.

Lemma has_row_not {R} (hit : R -> bool) (t : table R) (P : Prop) :
  (has_row hit t = true <-> P) -> ~ P -> has_row hit t = false.
Proof. intros H Hn. destruct (has_row hit t); [tauto|reflexivity]. Qed.

Lemma user_exists_iff db id :
  has_row (fun u => Z.eqb (u_id u) id) (usuarios db) = true
  <-> user_exists db id.
Proof. apply has_row_iff. intros r. apply Z.eqb_eq. Qed.

Lemma team_exists_iff db id :
  has_row (fun e => Z.eqb (e_id e) id) (equipos db) = true
  <-> team_exists db id.
Proof. apply has_row_iff. intros r. apply Z.eqb_eq. Qed.

Lemma tournament_exists_iff db id :
  has_row (fun t => Z.eqb (t_id t) id) (torneos db) = true
  <-> tournament_exists db id.
Proof. apply has_row_iff. intros r. apply Z.eqb_eq. Qed.

Lemma team_named_iff db nombre :
  has_row (fun e => String.eqb (e_nombre e) nombre) (equipos db) = true
  <-> team_named db nombre.
Proof. apply has_row_iff. intros r. apply String.eqb_eq. Qed.

Lemma enrolled_iff db team tournament :
  has_row (fun i => Z.eqb (i_id_equipo i) team
                    && Z.eqb (i_id_torneo i) tournament) (inscripciones db)
  = true
  <-> enrolled db team tournament.
Proof.
  apply has_row_iff. intros r. rewrite andb_true_iff, !Z.eqb_eq. reflexivity.
Qed.

Lemma captain_of_some_team_iff db user :
  has_row (fun e => Z.eqb (e_id_capitan e) user) (equipos db) = true
  <-> captain_of_some_team db user.
Proof. apply has_row_iff. intros r. apply Z.eqb_eq. Qed.









(** ** Deleting a user *)

(** X11. Delete-user on a stored id: while some team has the user as its
    captain ([equipos.id_capitan]) the delete fails with the bare 500 and
    changes nothing; otherwise it succeeds (204), the user row goes, the
    user's memberships go with it, and every other table stays as it
    was. *)
Theorem delete_user_restricted_or_cascades
    (now : string) (id : Z) (db : DB) :
  user_exists db id ->
  (captain_of_some_team db id ->
   app now (DELETE_users_id id) db = (InternalServerError, db))
  /\ (~ captain_of_some_team db id ->
      app now (DELETE_users_id id) db
      = (JSONResponse HTTP_204_NO_CONTENT no_content,
         mk_DB (without u_id id (usuarios db))
               (equipos db)
               (without m_id_usuario id (miembros_equipo db))
               (torneos db) (inscripciones db) (pagos db) (partidos db))).
Proof.
  intros Hu. apply user_exists_iff in Hu.
  cbv beta iota delta [app]. rewrite route_valid. eval_get_db.
  unfold Sql.DELETE_FROM_usuarios. rewrite Hu. cbn [negb]. split.
  - intros Hc. rewrite (proj2 (captain_of_some_team_iff db id) Hc).
    reflexivity.
  - intros Hc. rewrite (has_row_not _ _ _ (captain_of_some_team_iff db id) Hc).
    rewrite (count_rows_has_row _ _ Hu). reflexivity.
Qed.

Lemma delete_user_restricted_or_cascades_witness :
  app example_clock (DELETE_users_id 1) db_teams
  = (InternalServerError, db_teams)
  /\ app example_clock (DELETE_users_id 2) db_users
     = (JSONResponse HTTP_204_NO_CONTENT no_content,
        mk_DB (mk_table [mk_usuario 1 "Ana García" "agarcia"
                                    "ana.garcia@example.com" example_hash
                                    example_clock] 2)
              (equipos db_users) (miembros_equipo db_users) (torneos db_users)
              (inscripciones db_users) (pagos db_users) (partidos db_users)).
Proof.
  split.
  - apply (proj1 (delete_user_restricted_or_cascades example_clock 1 db_teams
                    (ex_intro _ (mk_usuario 1 "Ana García" "agarcia"
                                            "ana.garcia@example.com"
                                            example_hash example_clock)
                              (conj (or_introl eq_refl) eq_refl)))).
    exists (mk_equipo 1 "Los Campeones" 1).
    split; [left; reflexivity | reflexivity].
  - rewrite (proj2 (delete_user_restricted_or_cascades example_clock 2 db_users
                      (ex_intro _ (mk_usuario 2 "Juan Pérez" "jperez"
                                              "juan.perez@example.com"
                                              example_hash example_clock)
                                (conj (or_intror (or_introl eq_refl))
                                      eq_refl)))).
    + reflexivity.
    + intros [e [[] _]].
Defined.

(** ** Delete twice, list after create *)

Lemma has_row_retain_others {R} (hit : R -> bool) (t : table R) :
  has_row hit (retain (fun r => negb (hit r)) t) = false.
Proof.
  apply has_row_false. intros r Hin. unfold retain in Hin; simpl in Hin.
  apply filter_In in Hin. destruct Hin as [_ H].
  now apply negb_true_iff in H.
Qed.



Ltac listed_after Hsel :=
  rewrite Hsel; cbn [fst snd respond];
  let H := fresh in
  let Hg := fresh in
  intros H Hg; injection H as <- <-; injection Hg as <-;
  eexists; split;
  [ reflexivity
  | cbv beta iota delta [app]; rewrite route_valid; eval_get_db;
    cbn [usuarios equipos miembros_equipo torneos inscripciones pagos partidos
         set_usuarios set_equipos set_miembros_equipo set_torneos
         set_inscripciones set_pagos set_partidos rows];
    rewrite map_app; reflexivity ].



(** * Invariants of the reachable states *)

(** ** Primary keys *)

Section Keys.
Context {R : Type} (id_of : R -> Z).

Lemma max_rowid_nonneg (ids : list Z) : (0 <= max_rowid ids)%Z.
Proof. unfold max_rowid. induction ids; simpl; lia. Qed.

Lemma next_rowid_above_seq (t : table R) : (seq t < next_rowid id_of t)%Z.
Proof. unfold next_rowid. lia. Qed.

Lemma next_rowid_positive (t : table R) : (0 < next_rowid id_of t)%Z.
Proof.
  unfold next_rowid.
  pose proof (max_rowid_nonneg (map id_of (rows t))). lia.
Qed.

Lemma NoDup_snoc {B} (l : list B) x :
  NoDup l -> ~ In x l -> NoDup (l ++ [x]).
Proof.
  intros Hl Hx. apply NoDup_app; [exact Hl|repeat constructor; auto|].
  intros a Ha [<-|[]]. contradiction.
Qed.

Lemma keys_ok_retain keep (t : table R) :
  keys_ok id_of t -> keys_ok id_of (retain keep t).
Proof.
  intros [Hn Hf]. split; cbn [retain rows seq].
  - clear Hf. induction (rows t) as [|x l IH]; simpl; [constructor|].
    inversion Hn as [|? ? Hx Hl]; subst.
    destruct (keep x); simpl; [|auto]. constructor; [|auto].
    intros Hin. apply Hx. apply in_map_iff in Hin.
    destruct Hin as [y [Hy Hin]]. apply filter_In in Hin.
    apply in_map_iff. exists y. tauto.
  - apply Forall_filter_keep. exact Hf.
Qed.

Lemma keys_ok_modify hit f (t : table R) :
  (forall r, id_of (f r) = id_of r) ->
  keys_ok id_of t -> keys_ok id_of (modify hit f t).
Proof.
  intros Hid [Hn Hf]. split.
  - rewrite map_modify_fixed by exact Hid. exact Hn.
  - cbn [modify rows seq]. apply Forall_map.
    revert Hf. apply Forall_impl. intros r Hr.
    destruct (hit r); [rewrite Hid|]; exact Hr.
Qed.

Lemma keys_ok_append (t : table R) r :
  id_of r = next_rowid id_of t ->
  keys_ok id_of t ->
  keys_ok id_of (mk_table (rows t ++ [r]) (next_rowid id_of t)).
Proof.
  intros Hr [Hn Hf]. split; cbn [rows seq].
  - rewrite map_app. cbn [map]. apply NoDup_snoc; [exact Hn|].
    intros Hin. apply in_map_iff in Hin. destruct Hin as [y [Hy Hin]].
    pose proof (next_rowid_above id_of t y Hin). lia.
  - apply Forall_app. split.
    + revert Hf. apply Forall_impl. intros y Hy.
      pose proof (next_rowid_above_seq t). lia.
    + constructor; [|constructor]. rewrite Hr.
      pose proof (next_rowid_positive t). lia.
Qed.

Lemma ids_only_grow_refl (t : table R) : ids_only_grow id_of t t.
Proof. split; [lia|auto]. Qed.

Lemma ids_only_grow_trans (t1 t2 t3 : table R) :
  ids_only_grow id_of t1 t2 -> ids_only_grow id_of t2 t3 ->
  ids_only_grow id_of t1 t3.
Proof.
  intros [H1 H1'] [H2 H2']. split; [lia|].
  intros x Hx. destruct (H2' x Hx) as [H|H]; [auto|right; lia].
Qed.

Lemma ids_only_grow_retain keep (t : table R) :
  ids_only_grow id_of t (retain keep t).
Proof.
  split; cbn [retain rows seq]; [lia|]. intros x Hx. left.
  apply in_map_iff in Hx. destruct Hx as [y [Hy Hin]].
  apply filter_In in Hin. apply in_map_iff. exists y. tauto.
Qed.

Lemma ids_only_grow_modify hit f (t : table R) :
  (forall r, id_of (f r) = id_of r) ->
  ids_only_grow id_of t (modify hit f t).
Proof.
  intros Hid. split; [cbn [modify seq]; lia|]. intros x Hx. left.
  rewrite map_modify_fixed in Hx by exact Hid. exact Hx.
Qed.

Lemma ids_only_grow_append (t : table R) r :
  id_of r = next_rowid id_of t ->
  ids_only_grow id_of t (mk_table (rows t ++ [r]) (next_rowid id_of t)).
Proof.
  intros Hr. pose proof (next_rowid_above_seq t).
  split; cbn [rows seq]; [lia|]. intros x Hx.
  rewrite map_app in Hx. apply in_app_or in Hx.
  destruct Hx as [Hx|[<-|[]]]; [auto|right; lia].
Qed.
End Keys.

Ltac table_step :=
  first
    [ assumption
    | apply keys_ok_retain; assumption
    | apply keys_ok_modify; [intros; reflexivity | assumption]
    | apply keys_ok_append; [reflexivity | assumption]
    | apply ids_only_grow_refl
    | apply ids_only_grow_retain
    | apply ids_only_grow_modify; intros; reflexivity
    | apply ids_only_grow_append; reflexivity ].

Ltac project_tables :=
  cbn [usuarios equipos miembros_equipo torneos inscripciones pagos partidos
       set_usuarios set_equipos set_miembros_equipo set_torneos
       set_inscripciones set_pagos set_partidos].

Ltac split_tables :=
  split; [|split; [|split; [|split; [|split; [|split]]]]].

Lemma primary_keys_ok_step now r db db' n :
  statement now r db = Some (Sql.Done db' n) ->
  primary_keys_ok db -> primary_keys_ok db'.
Proof.
  intros H (Hu & He & Hm & Ht & Hi & Hp & Hpa). unfold primary_keys_ok.
  destruct r; statement_done H; project_tables; split_tables; table_step.
Qed.

Lemma no_id_reused_step now r db db' n :
  statement now r db = Some (Sql.Done db' n) -> no_id_reused db db'.
Proof.
  intros H. unfold no_id_reused.
  destruct r; statement_done H; project_tables; split_tables; table_step.
Qed.

(** X16. In every reachable state the ids of each table are pairwise different,
    positive, and at most the table's [sqlite_sequence] value. *)
Theorem primary_keys_hold (db : DB) :
  reachable db -> primary_keys_ok db.
Proof.
  apply reachable_invariant.
  - unfold primary_keys_ok, keys_ok; cbn.
    repeat split; constructor.
  - exact primary_keys_ok_step.
Qed.

Lemma primary_keys_hold_witness : primary_keys_ok db_match.
Proof. exact (primary_keys_hold db_match db_match_reachable). Defined.

Lemma no_id_reused_refl db : no_id_reused db db.
Proof. unfold no_id_reused. split_tables; apply ids_only_grow_refl. Qed.

Lemma no_id_reused_trans db1 db2 db3 :
  no_id_reused db1 db2 -> no_id_reused db2 db3 -> no_id_reused db1 db3.
Proof.
  intros (A1 & A2 & A3 & A4 & A5 & A6 & A7) (B1 & B2 & B3 & B4 & B5 & B6 & B7).
  unfold no_id_reused.
  split_tables; eapply ids_only_grow_trans; eassumption.
Qed.


Example deleted_user_id_is_not_reused :
  fst (serve [(example_clock, DELETE_users_id 2);
              (example_clock, POST_users juan)] db_users)
  = [JSONResponse 204 no_content;
     JSONResponse 201
       (a_Usuario (mk_Usuario 3 "Juan Pérez" "jperez" "juan.perez@example.com"
                              example_clock))].
Proof. vm_compute. reflexivity. Qed.

(** ** Check constraints *)

Ltac split_tests :=
  repeat match goal with
         | E : (_ || _)%bool = false |- _ =>
             apply orb_false_iff in E; destruct E
         | E : negb _ = false |- _ => apply negb_false_iff in E
         | E : negb _ = true |- _ => apply negb_true_iff in E
         end.

Lemma Forall_modify {R} (P : R -> Prop) hit f (t : table R) :
  Forall P (rows t) -> (forall r, P r -> hit r = true -> P (f r)) ->
  Forall P (rows (modify hit f t)).
Proof.
  intros H Hf. cbn [modify rows]. apply Forall_map.
  revert H. apply Forall_impl. intros r Hr.
  destruct (hit r) eqn:E; auto.
Qed.

Lemma Forall_append {R} (P : R -> Prop) (t : table R) r s :
  Forall P (rows t) -> P r -> Forall P (rows (mk_table (rows t ++ [r]) s)).
Proof.
  intros H Hr. cbn [rows]. apply Forall_app. split; [exact H|].
  constructor; [exact Hr|constructor].
Qed.

Lemma checks_ok_step now r db db' n :
  statement now r db = Some (Sql.Done db' n) ->
  checks_ok db -> checks_ok db'.
Proof.
  intros H (Hm & Ht & Hp). unfold checks_ok.
  destruct r; statement_done H; project_tables;
    (split; [|split]);
    try assumption;
    try (apply Forall_filter_keep; assumption);
    split_tests;
    first
      [ apply Forall_append; [assumption|]
      | apply Forall_modify; [assumption|intros ? _ _] ];
    cbn [m_rol t_max_equipos t_estado p_monto_cent p_estado];
    repeat split; try assumption;
    first [ apply Z.ltb_lt; assumption | apply Z.leb_le; assumption ].
Qed.

(** X20. In every reachable state the stored values satisfy the [CHECK]
    constraints of the schema: every membership has one of the three roles,
    every tournament a positive [max_equipos] and one of the three states,
    every payment a non-negative amount and one of the two states. *)
Theorem check_constraints_hold (db : DB) :
  reachable db -> checks_ok db.
Proof.
  apply reachable_invariant.
  - unfold checks_ok; cbn. repeat split; constructor.
  - exact checks_ok_step.
Qed.

Lemma check_constraints_hold_witness : checks_ok db_match.
Proof. exact (check_constraints_hold db_match db_match_reachable). Defined.

(** ** Referential integrity *)

Section HasId.
Context {R : Type} (id_of : R -> Z).

Lemma has_id_append (t : table R) r s x :
  has_id id_of t x -> has_id id_of (mk_table (rows t ++ [r]) s) x.
Proof.
  intros [y [Hin Hy]]. exists y. split; [|exact Hy].
  cbn [rows]. apply in_or_app. left. exact Hin.
Qed.

Lemma has_id_modify hit f (t : table R) x :
  (forall r, id_of (f r) = id_of r) ->
  has_id id_of t x -> has_id id_of (modify hit f t) x.
Proof.
  intros Hid [y [Hin Hy]].
  exists (if hit y then f y else y). split.
  - cbn [modify rows]. apply in_map_iff. exists y. auto.
  - destruct (hit y); [rewrite Hid|]; exact Hy.
Qed.

Lemma has_id_retain v (t : table R) x :
  x <> v ->
  has_id id_of t x ->
  has_id id_of (retain (fun r => negb (Z.eqb (id_of r) v)) t) x.
Proof.
  intros Hne [y [Hin Hy]]. exists y. split; [|exact Hy].
  cbn [retain rows]. apply filter_In. split; [exact Hin|].
  apply negb_true_iff, Z.eqb_neq. congruence.
Qed.

Lemma has_id_new (t : table R) r s :
  has_id id_of (mk_table (rows t ++ [r]) s) (id_of r).
Proof.
  exists r. split; [|reflexivity]. cbn [rows].
  apply in_or_app. right. left. reflexivity.
Qed.

Lemma has_id_iff (t : table R) x :
  has_row (fun r => Z.eqb (id_of r) x) t = true <-> has_id id_of t x.
Proof. apply has_row_iff. intros r. apply Z.eqb_eq. Qed.
End HasId.

Lemma Forall_retain_impl {R} (P Q : R -> Prop) keep (t : table R) :
  Forall P (rows t) ->
  (forall r, In r (rows t) -> keep r = true -> P r -> Q r) ->
  Forall Q (rows (retain keep t)).
Proof.
  intros H Himp. cbn [retain rows]. apply Forall_forall.
  intros r Hr. apply filter_In in Hr. destruct Hr as [Hin Hk].
  rewrite Forall_forall in H. auto.
Qed.

Lemma Forall_In_impl {R} (P Q : R -> Prop) (l : list R) :
  Forall P l -> (forall r, In r l -> P r -> Q r) -> Forall Q l.
Proof.
  intros H Himp. apply Forall_forall. intros r Hr.
  rewrite Forall_forall in H. auto.
Qed.

Ltac use_restrict :=
  repeat match goal with
         | H : has_row _ ?t = false, Hin : In ?r (rows ?t) |- _ =>
             let E := fresh "E" in
             pose proof (proj1 (has_row_false _ _) H r Hin) as E;
             cbv beta in E; clear H
         end.

Ltac exists_step :=
  first
    [ assumption
    | apply has_id_append; assumption
    | apply has_id_modify; [intros; reflexivity | assumption]
    | apply has_id_new
    | apply has_id_retain; [apply Z.eqb_neq; assumption | assumption]
    | apply has_id_iff; assumption ].

Ltac pointwise :=
  cbv beta; intros;
  repeat match goal with H : _ /\ _ |- _ => destruct H end;
  use_restrict; split_tests;
  cbn [e_id_capitan m_id_equipo m_id_usuario i_id_equipo i_id_torneo
       p_id_equipo p_id_torneo pa_id_torneo pa_equipo_local
       pa_equipo_visitante];
  repeat split; exists_step.

Ltac refs_rows :=
  first
    [ assumption
    | apply Forall_filter_keep; assumption
    | eapply Forall_retain_impl; [eassumption | pointwise]
    | eapply Forall_In_impl; [eassumption | pointwise]
    | apply Forall_append;
      [ first [assumption | eapply Forall_In_impl; [eassumption | pointwise]]
      | pointwise ]
    | apply Forall_modify; [assumption | pointwise] ].

Lemma refs_ok_step now r db db' n :
  statement now r db = Some (Sql.Done db' n) ->
  refs_ok db -> refs_ok db'.
Proof.
  intros H (He & Hm & Hi & Hp & Hpa).
  unfold refs_ok, user_exists, team_exists, tournament_exists in *.
  destruct r; statement_done H; project_tables;
    (split; [|split; [|split; [|split]]]); refs_rows.
Qed.

(** X18. In every reachable state every foreign key names a stored row: each
    team's captain is a user, each membership's team and user exist, each
    enrollment's and payment's team and tournament exist, and each match's
    tournament and two teams exist. *)
Theorem referential_integrity_holds (db : DB) :
  reachable db -> refs_ok db.
Proof.
  apply reachable_invariant.
  - unfold refs_ok; cbn. repeat split; constructor.
  - exact refs_ok_step.
Qed.

Lemma referential_integrity_holds_witness : refs_ok db_match.
Proof. exact (referential_integrity_holds db_match db_match_reachable). Defined.

(** ** Unique constraints *)

Section UniqueKeys.
Context {R K : Type} (k : R -> K).

Lemma NoDup_map_retain keep (t : table R) :
  NoDup (map k (rows t)) -> NoDup (map k (rows (retain keep t))).
Proof.
  cbn [retain rows]. induction (rows t) as [|x l IH]; simpl; intros Hn;
    [constructor|].
  inversion Hn as [|? ? Hx Hl]; subst.
  destruct (keep x); simpl; [|auto]. constructor; [|auto].
  intros Hin. apply Hx. apply in_map_iff in Hin.
  destruct Hin as [y [Hy Hin]]. apply filter_In in Hin.
  apply in_map_iff. exists y. tauto.
Qed.

Lemma NoDup_map_append (t : table R) x s :
  NoDup (map k (rows t)) ->
  (forall r, In r (rows t) -> k r <> k x) ->
  NoDup (map k (rows (mk_table (rows t ++ [x]) s))).
Proof.
  intros Hn Hx. cbn [rows]. rewrite map_app. cbn [map].
  apply NoDup_snoc; [exact Hn|]. intros Hin.
  apply in_map_iff in Hin. destruct Hin as [y [Hy Hin]].
  exact (Hx y Hin Hy).
Qed.

Lemma NoDup_map_modify_one (id_of : R -> Z) i f v (t : table R) :
  NoDup (map id_of (rows t)) ->
  NoDup (map k (rows t)) ->
  (forall r, k (f r) = v) ->
  (forall r, In r (rows t) -> Z.eqb (id_of r) i = false -> k r <> v) ->
  NoDup (map k (rows (modify (fun r => Z.eqb (id_of r) i) f t))).
Proof.
  cbn [modify rows]. intros Hid Hk Hf Hv.
  induction (rows t) as [|x l IH]; simpl; [constructor|].
  inversion Hid as [|? ? Hxi Hli]; subst.
  inversion Hk as [|? ? Hxk Hlk]; subst.
  assert (NoDup (map k (map (fun r => if Z.eqb (id_of r) i then f r else r)
                            l))) as Htail.
  { apply IH; auto. intros r Hr. apply Hv. right. exact Hr. }
  constructor; [|exact Htail].
  intros Hin. apply in_map_iff in Hin. destruct Hin as [y' [Hy' Hin]].
  apply in_map_iff in Hin. destruct Hin as [y [<- Hy]].
  destruct (Z.eqb (id_of x) i) eqn:Ex; destruct (Z.eqb (id_of y) i) eqn:Ey.
  - apply Z.eqb_eq in Ex, Ey. apply Hxi. apply in_map_iff.
    exists y. split; [congruence|exact Hy].
  - rewrite Hf in Hy'. exact (Hv y (or_intror Hy) Ey Hy').
  - rewrite Hf in Hy'. apply (Hv x (or_introl eq_refl) Ex). congruence.
  - apply Hxk. apply in_map_iff. exists y. auto.
Qed.
End UniqueKeys.

Ltac unique_rows :=
  first
    [ assumption
    | apply NoDup_map_retain; assumption
    | apply NoDup_map_append;
      [ assumption
      | intros; split_tests; use_restrict; split_tests;
        cbn [u_email e_nombre m_id_equipo m_id_usuario i_id_equipo i_id_torneo];
        first
          [ apply String.eqb_neq; assumption
          | let E := fresh in
            let E1 := fresh in
            let E2 := fresh in
            intros E; injection E as E1 E2;
            match goal with
            | H : (_ && _)%bool = false |- _ =>
                rewrite E1, E2, !Z.eqb_refl in H; discriminate H
            end ] ] ].

Ltac unique_modify :=
  match goal with
  | |- NoDup (map u_email
                  (rows (modify (fun x => Z.eqb (u_id x) ?i)
                                (fun y => mk_usuario _ _ _ ?e _ _) _))) =>
      apply (NoDup_map_modify_one u_email u_id i _ e)
  | |- NoDup (map e_nombre
                  (rows (modify (fun x => Z.eqb (e_id x) ?i)
                                (fun y => mk_equipo _ ?nm _) _))) =>
      apply (NoDup_map_modify_one e_nombre e_id i _ nm)
  end;
  [ assumption | assumption | intros; reflexivity
  | let z := fresh "z" in
    let Hin := fresh in
    let E := fresh in
    intros z Hin E; split_tests; use_restrict; split_tests;
    match goal with
    | H : (negb _ && _)%bool = false |- _ =>
        rewrite E in H; cbn [negb andb] in H;
        apply String.eqb_neq; exact H
    end ].

Lemma unique_ok_step now r db db' n :
  statement now r db = Some (Sql.Done db' n) ->
  primary_keys_ok db -> unique_ok db -> unique_ok db'.
Proof.
  intros H ([Ku _] & [Ke _] & _) (Hu & He & Hm & Hi). unfold unique_ok.
  destruct r; statement_done H; project_tables;
    (split; [|split; [|split]]);
    first [ unique_rows | unique_modify ].
Qed.

(** X19. In every reachable state the [UNIQUE] constraints hold: no two users
    share an e-mail address, no two teams a name, no user is twice a member
    of one team, and no team is enrolled twice in one tournament. *)
Theorem unique_constraints_hold (db : DB) :
  reachable db -> unique_ok db.
Proof.
  intros Hr.
  assert (primary_keys_ok db /\ unique_ok db) as [_ H]; [|exact H].
  revert db Hr. apply reachable_invariant.
  - split.
    + unfold primary_keys_ok, keys_ok; cbn. repeat split; constructor.
    + unfold unique_ok; cbn. repeat split; constructor.
  - intros now r db db' n Hs [Hk Hu]. split.
    + exact (primary_keys_ok_step now r db db' n Hs Hk).
    + exact (unique_ok_step now r db db' n Hs Hk Hu).
Qed.

Lemma unique_constraints_hold_witness : unique_ok db_match.
Proof. exact (unique_constraints_hold db_match db_match_reachable). Defined.

(** * Only a success changes the database *)

Lemma inserting_caught_raises_without_trace {R A} stmt
    (select : Z -> DB -> option R) (model : R -> A) detail :
  refetch_after_insert stmt select ->
  raises_without_trace (inserting_caught stmt select model detail).
Proof.
  intros Hre db. rewrite get_db_inserting_caught.
  destruct (stmt db) as [db' id|] eqn:E; [|reflexivity].
  specialize (Hre db db' id E).
  destruct (select id db'); [exact I|contradiction].
Qed.

Lemma inserting_raises_without_trace {R A} stmt
    (select : Z -> DB -> option R) (model : R -> A) :
  refetch_after_insert stmt select ->
  raises_without_trace (inserting stmt select model).
Proof.
  intros Hre db. rewrite get_db_inserting.
  destruct (stmt db) as [db' id|] eqn:E; [|reflexivity].
  specialize (Hre db db' id E).
  destruct (select id db'); [exact I|contradiction].
Qed.

Lemma updating_raises_without_trace {R A} stmt (select : DB -> option R)
    (model : R -> A) detail :
  refetch_after_update stmt select ->
  raises_without_trace (updating stmt select model detail).
Proof.
  intros Hre db. rewrite get_db_updating.
  destruct (stmt db) as [db' n|] eqn:E; [|reflexivity].
  specialize (Hre db db' n E).
  destruct (Z.eqb n 0); [reflexivity|].
  specialize (Hre eq_refl).
  destruct (select db'); [exact I|contradiction].
Qed.

Lemma deleting_raises_without_trace stmt detail :
  raises_without_trace (deleting stmt detail).
Proof.
  intros db. rewrite get_db_deleting.
  destruct (stmt db) as [db' n|]; [|reflexivity].
  destruct (Z.eqb n 0); [reflexivity|exact I].
Qed.

Lemma fetching_raises_without_trace {R A} (select : DB -> option R)
    (model : R -> A) detail :
  raises_without_trace (fetching select model detail).
Proof.
  intros db. rewrite get_db_fetching. destruct (select db); [exact I|].
  reflexivity.
Qed.

Lemma listing_raises_without_trace {R A} (tbl : DB -> table R)
    (model : R -> A) :
  raises_without_trace (listing tbl model).
Proof. intros db. exact I. Qed.

Lemma route_failure_unchanged {A} valid success (wrap : A -> content)
    (h : handler A) db :
  raises_without_trace h ->
  (success < 400)%Z ->
  (400 <= status_code_of (fst (route valid success wrap h db)))%Z ->
  snd (route valid success wrap h db) = db.
Proof.
  intros Hh Hs. unfold route. destruct valid; [|reflexivity].
  specialize (Hh db). destruct (get_db h db) as [o db']; cbn [fst snd] in *.
  destruct o as [a|e]; [cbn; lia|]. intros _. exact Hh.
Qed.

Ltac template_without_trace :=
  first
    [ apply inserting_caught_raises_without_trace; insert_refetch
    | apply inserting_raises_without_trace; insert_refetch
    | apply updating_raises_without_trace;
      first [ apply UPDATE_usuarios_refetch | apply UPDATE_equipos_refetch
            | apply UPDATE_torneos_refetch ]
    | apply deleting_raises_without_trace
    | apply fetching_raises_without_trace
    | apply listing_raises_without_trace ].



(** * Members other than captains, and matches *)

Lemma member_of_iff db team user :
  has_row (fun x => Z.eqb (m_id_equipo x) team && Z.eqb (m_id_usuario x) user)
          (miembros_equipo db) = true
  <-> member_of db team user.
Proof.
  apply has_row_iff. intros r. rewrite andb_true_iff, !Z.eqb_eq. reflexivity.
Qed.




